(** * Room lifecycle and poll analysis of the live-quiz backend

    A shallow embedding of [RoomService] (backend, module livequizzes) and of
    the Mongoose schemas it works on ([AnswerSchema], [PollSchema],
    [RoomSchema]), followed by the properties of the service.

    Modelling conventions.
    - A JavaScript [Number] that holds a counter, an index or a score is a [Z]:
      these are integers far below 2^53, where double arithmetic is exact.
      The duration of a report, where a difference of time stamps can pass
      2^53, is computed with the rounding of doubles.
    - A [Date] is its millisecond time stamp, a [Z]; an absent field is [None].
    - A collection is the list of its documents in natural order; [findOne]
      returns the first document that matches.
    - [await] is sequencing: the service is modelled by pure functions that
      take the collections and return the new collection with the result.
    - A thrown exception is the [Throw] case of [result]. *)

From Stdlib Require Import ZArith List String Ascii Bool Lia.
From Stdlib Require Import Permutation Sorted DecimalString.
From Stdlib Require DecimalZ.
Import ListNotations.

Local Open Scope string_scope.
Local Open Scope Z_scope.

(** ** Exceptions *)

Inductive exn : Type :=
| Error (message : string)
| ValidationError (path : string)
| DuplicateKeyError (path : string).

Inductive result (A : Type) : Type :=
| Ok (value : A)
| Throw (e : exn).

Arguments Ok {A} value.
Arguments Throw {A} e.

(** ** The JavaScript primitives the service calls *)

Module JS.

(** [String.prototype.toLowerCase] and [toUpperCase] on the ASCII letters.
    A Rocq string is a byte string; bytes outside [A-Z] (resp. [a-z]) are
    kept.  No character outside ASCII has a lower-case form made of ASCII
    letters of the word [active] only, so the comparison with ['active'] in
    [isRoomValid] is the same on the UTF-8 bytes. *)
Definition lowerChar (c : ascii) : ascii :=
  let n := nat_of_ascii c in
  if ((65 <=? n) && (n <=? 90))%nat then ascii_of_nat (n + 32) else c.

Definition upperChar (c : ascii) : ascii :=
  let n := nat_of_ascii c in
  if ((97 <=? n) && (n <=? 122))%nat then ascii_of_nat (n - 32) else c.

Fixpoint toLowerCase (s : string) : string :=
  match s with
  | EmptyString => EmptyString
  | String c r => String (lowerChar c) (toLowerCase r)
  end.

Fixpoint toUpperCase (s : string) : string :=
  match s with
  | EmptyString => EmptyString
  | String c r => String (upperChar c) (toUpperCase r)
  end.

(** [s.substring(start, end)]: the characters at the indices
    [start .. end-1], clamped to the string; the arguments are swapped when
    [start > end]. *)
Definition substring (start stop : nat) (s : string) : string :=
  if (start <=? stop)%nat
  then String.substring start (stop - start) s
  else String.substring stop (start - stop) s.

(** [Math.ceil(a / b)] for an integer [a] and a positive integer [b]. *)
Definition ceilDiv (a b : Z) : Z := - ((- a) / b).

(** Conversion of an integer [Number] to a string. *)
Definition numberToString (n : Z) : string :=
  NilZero.string_of_int (Z.to_int n).

(** [Array.prototype.sort(cmp)].  The sort is stable, so for a comparator
    that orders by a key the result is the one of any stable sort; it is
    written here as a stable insertion sort.  [cmp a b < 0] puts [a] before
    [b]. *)
Section Sort.
Context {A : Type} (cmp : A -> A -> Z).

Fixpoint insert (x : A) (l : list A) : list A :=
  match l with
  | [] => [x]
  | y :: r => if cmp y x <? 0 then y :: insert x r else x :: y :: r
  end.

Fixpoint sort (l : list A) : list A :=
  match l with
  | [] => []
  | x :: r => insert x (sort r)
  end.
End Sort.

(** [Map<string, V>]: the entries in insertion order.  [set] on a key that
    is present replaces the value where it stands, on a new key it appends
    the entry. *)
Section Map.
Context {V : Type}.

Definition Map := list (string * V).

Fixpoint has (k : string) (m : Map) : bool :=
  match m with
  | [] => false
  | (k', _) :: r => if String.eqb k' k then true else has k r
  end.

Fixpoint get (k : string) (m : Map) : option V :=
  match m with
  | [] => None
  | (k', v) :: r => if String.eqb k' k then Some v else get k r
  end.

Fixpoint set (k : string) (v : V) (m : Map) : Map :=
  match m with
  | [] => [(k, v)]
  | (k', v') :: r =>
      if String.eqb k' k then (k', v) :: r else (k', v') :: set k v r
  end.

Definition keys (m : Map) : list string := map fst m.
Definition values (m : Map) : list V := map snd m.
End Map.
Arguments Map V : clear implicits.


(** [Array.prototype.findIndex]: the position of the first element that
    passes, -1 when there is none. *)
Fixpoint findIndexFrom {A : Type} (p : A -> bool) (i : Z) (l : list A) : Z :=
  match l with
  | [] => -1
  | x :: r => if p x then i else findIndexFrom p (i + 1) r
  end.

Definition findIndex {A : Type} (p : A -> bool) (l : list A) : Z :=
  findIndexFrom p 0 l.

(** [array.filter((_, i) => keep(i))]: the callback sees the position. *)
Fixpoint filterIndexFrom {A : Type} (keep : nat -> bool) (i : nat) (l : list A)
  : list A :=
  match l with
  | [] => []
  | x :: r => if keep i then x :: filterIndexFrom keep (S i) r
              else filterIndexFrom keep (S i) r
  end.

Definition filterIndex {A : Type} (keep : nat -> bool) (l : list A) : list A :=
  filterIndexFrom keep 0 l.

(** [array[k]] for an integer [k]: [None] is [undefined], the value outside
    the array. *)
Definition getAt {A : Type} (k : Z) (arr : list A) : option A :=
  if k <? 0 then None else nth_error arr (Z.to_nat k).

(** [array[k] = v] on an array whose elements may be [undefined].  A
    negative [k] sets a property and leaves the elements; a [k] past the end
    extends the array, the new places before [k] being holes. *)
Definition setAt {A : Type} (k : Z) (v : option A) (arr : list (option A))
  : list (option A) :=
  if k <? 0 then arr
  else
    let n := Z.to_nat k in
    if (n <? List.length arr)%nat
    then (firstn n arr ++ v :: skipn (S n) arr)%list
    else (arr ++ repeat None (n - List.length arr) ++ [v])%list.

(** *** Numbers as doubles

    Where a magnitude can pass 2^53 the arithmetic of the code rounds.  A
    double is given by a mantissa and a binary exponent; the exponent range
    plays no part for the magnitudes that occur, time stamps and their
    quotients. *)

(** The integer nearest to [n / d], a tie going to the even one; [0 <= n],
    [0 < d]. *)
Definition roundHalfEven (n d : Z) : Z :=
  let q := n / d in
  let r := n mod d in
  if 2 * r <? d then q
  else if d <? 2 * r then q + 1
  else if Z.even q then q else q + 1.

(** The binary exponent of [n / d]: the [e] with [2^e <= n / d < 2^(e+1)];
    [0 < n], [0 < d]. *)
Definition exponentOf (n d : Z) : Z :=
  let e0 := Z.log2 n - Z.log2 d in
  if d * 2 ^ Z.max 0 e0 <=? n * 2 ^ Z.max 0 (- e0) then e0 else e0 - 1.

(** The double nearest to [n / d], as [(m, s)] for the value [m / 2^s]: the
    mantissa [m] has 53 bits. *)
Definition nearestDouble (n d : Z) : Z * Z :=
  let s := 52 - exponentOf n d in
  (roundHalfEven (n * 2 ^ Z.max 0 s) (d * 2 ^ Z.max 0 (- s)), s).

(** The double nearest to an integer, which is an integer: the value of a
    sum or difference of integer doubles. *)
Definition doubleOfZ (z : Z) : Z :=
  if z =? 0 then 0
  else
    let (m, s) := nearestDouble (Z.abs z) 1 in
    Z.sgn z * (if 0 <=? s then m / 2 ^ s else m * 2 ^ (- s)).

(** [Math.ceil(a / b)] for an integer double [a] and a positive integer
    double [b]: the quotient is rounded to a double before [Math.ceil]
    sees it. *)
Definition ceilOfQuotient (a b : Z) : Z :=
  if a =? 0 then 0
  else
    let (m, s) := nearestDouble (Z.abs a) b in
    if 0 <? a
    then if 0 <=? s then - ((- m) / 2 ^ s) else m * 2 ^ (- s)
    else if 0 <=? s then - (m / 2 ^ s) else - (m * 2 ^ (- s)).

(** A [Date] holds a time stamp of at most 8.64e15 ms in magnitude; a
    stored date beyond that reads as an invalid [Date], whose [getTime()] is
    [NaN]. *)
Definition validTime (t : Z) : bool :=
  (- 8640000000000000 <=? t) && (t <=? 8640000000000000).

(** *** Plain objects

    An object literal inherits from [Object.prototype]; these are the names
    it finds there. *)
Definition prototypeKeys : list string :=
  ["constructor"; "__defineGetter__"; "__defineSetter__"; "hasOwnProperty";
   "__lookupGetter__"; "__lookupSetter__"; "isPrototypeOf";
   "propertyIsEnumerable"; "toString"; "valueOf"; "__proto__";
   "toLocaleString"].

(** The value of [obj[k]] for an object whose own properties are the entries
    of a [Map]: the own value, else the inherited function or object, else
    [undefined]. *)
Inductive property (V : Type) : Type :=
| Own (v : V)
| Inherited
| Undefined.

Arguments Own {V} v.
Arguments Inherited {V}.
Arguments Undefined {V}.

Definition readProperty {V : Type} (k : string) (obj : list (string * V))
  : property V :=
  match get k obj with
  | Some v => Own v
  | None => if existsb (String.eqb k) prototypeKeys then Inherited else Undefined
  end.

(** [a % b] on integers; [None] is [NaN], the result for [b = 0]. *)
Definition remainder (a b : Z) : option Z :=
  if b =? 0 then None else Some (Z.rem a b).

End JS.

(** ** The data model: [AnswerSchema], [PollSchema], [RoomSchema] *)

Module Answer.
Record t : Type := mk {
  userId : string;
  answerIndex : Z;
  answeredAt : Z
}.
End Answer.

Module Poll.
Record t : Type := mk {
  _id : string;
  question : string;
  options : list string;
  correctOptionIndex : Z;
  timer : Z;
  createdAt : Z;
  answers : list Answer.t
}.

End Poll.

(** A document of the user collection, with the two fields the analysis
    selects. *)
Module User.
Record t : Type := mk {
  firebaseUID : string;
  firstName : option string
}.
End User.

(** A stored room document.  [_id] is the identifier the driver adds.
    [endedAt] is no path of [RoomSchema]; it is the field of the stored
    document that [getPollAnalysis] reads, absent unless the document has
    it. *)
Module Room.
Record t : Type := mk {
  _id : string;
  roomCode : string;
  name : string;
  teacherId : string;
  createdAt : option Z;
  endedAt : option Z;
  status : string;
  polls : list Poll.t
}.

Definition collection := list t.

(** [Room.findOne({ roomCode: code }).lean()] *)
Fixpoint findOne (code : string) (rooms : collection) : option t :=
  match rooms with
  | [] => None
  | r :: rest => if String.eqb (roomCode r) code then Some r else findOne code rest
  end.

(** [Room.findOneAndUpdate({ roomCode: code }, update, { new: true })]:
    the first match is updated in place and returned as updated. *)
Fixpoint findOneAndUpdate (code : string) (update : t -> t) (rooms : collection)
  : collection * option t :=
  match rooms with
  | [] => ([], None)
  | r :: rest =>
      if String.eqb (roomCode r) code
      then (update r :: rest, Some (update r))
      else let (rest', found) := findOneAndUpdate code update rest in
           (r :: rest', found)
  end.

(** The update document [{ status: 'ended' }]. *)
Definition setStatus (s : string) (r : t) : t :=
  mk (_id r) (roomCode r) (name r) (teacherId r) (createdAt r) (endedAt r)
     s (polls r).

(** A [required] string path rejects the empty string. *)
Definition checkRequired (s : string) : bool :=
  negb (String.eqb s EmptyString).

(** [new Room(doc).save()]: the [required] validators of [roomCode], [name]
    and [teacherId] run first, then the insert, which the [unique] index on
    [roomCode] rejects for a code that is stored already. *)
Definition save (doc : t) (rooms : collection) : collection * result t :=
  if negb (checkRequired (roomCode doc)) then (rooms, Throw (ValidationError "roomCode"))
  else if negb (checkRequired (name doc)) then (rooms, Throw (ValidationError "name"))
  else if negb (checkRequired (teacherId doc)) then (rooms, Throw (ValidationError "teacherId"))
  else match findOne (roomCode doc) rooms with
       | Some _ => (rooms, Throw (DuplicateKeyError "roomCode"))
       | None => ((rooms ++ [doc])%list, Ok doc)
       end.

(** [Room.find(query).lean()]: the documents that match, in natural order. *)
Definition find (query : t -> bool) (rooms : collection) : collection :=
  filter query rooms.

(** The order of the values of [createdAt] in a sort of the store: an absent
    value is below every date. *)
Definition compareCreatedAt (x y : option Z) : Z :=
  match x, y with
  | None, None => 0
  | None, Some _ => -1
  | Some _, None => 1
  | Some a, Some b => Z.sgn (a - b)
  end.

(** The sort document [{ createdAt: -1 }] as a comparator. *)
Definition byCreatedAtDesc (a b : t) : Z :=
  compareCreatedAt (createdAt b) (createdAt a).
End Room.

(** ** The analysis report *)

(** The accumulator kept per student in [participantsMap]. *)
Module Tally.
Record t : Type := mk {
  userId : string;
  correct : Z;
  wrong : Z;
  score : Z;
  timeTaken : Z
}.
End Tally.

Module Participant.
Record t : Type := mk {
  name : string;
  score : Z;
  correct : Z;
  wrong : Z;
  timeTaken : string
}.
End Participant.

Module Question.
Record t : Type := mk {
  text : string;
  correctCount : Z
}.
End Question.

Module Analysis.
Record t : Type := mk {
  id : string;
  name : string;
  createdAt : option Z;
  duration : string;
  participants : list Participant.t;
  questions : list Question.t
}.
End Analysis.

(** ** The service *)

Module RoomService.

(** [createRoom(name, teacherId)].  The environment supplies [random36],
    the string [Math.random().toString(36)], [oid], the identifier the driver
    gives the document, and [now], the clock. *)
Definition createRoom (random36 oid : string) (now : Z)
    (name teacherId : string) (rooms : Room.collection)
  : Room.collection * result Room.t :=
  let code := JS.toUpperCase (JS.substring 2 8 random36) in
  Room.save (Room.mk oid code name teacherId (Some now) None "active" []) rooms.

Definition getRoomByCode (code : string) (rooms : Room.collection) : option Room.t :=
  Room.findOne code rooms.

(** One turn of the inner loop of [getPollAnalysis]. *)
Definition tallyAnswer (poll : Poll.t) (participantsMap : JS.Map Tally.t)
    (answer : Answer.t) : JS.Map Tally.t :=
  let uid := Answer.userId answer in
  let participantsMap :=
    if negb (JS.has uid participantsMap)
    then JS.set uid (Tally.mk uid 0 0 0 0) participantsMap
    else participantsMap in
  match JS.get uid participantsMap with
  | Some participant =>
      let participant :=
        if Answer.answerIndex answer =? Poll.correctOptionIndex poll
        then Tally.mk (Tally.userId participant)
               (Tally.correct participant + 1) (Tally.wrong participant)
               (Tally.score participant + 5) (Tally.timeTaken participant)
        else Tally.mk (Tally.userId participant)
               (Tally.correct participant) (Tally.wrong participant + 1)
               (Tally.score participant - 2) (Tally.timeTaken participant) in
      JS.set uid participant participantsMap
  | None => participantsMap
  end.

(** The two nested loops over the polls and their answers. *)
Definition tallyPoll (participantsMap : JS.Map Tally.t) (poll : Poll.t)
  : JS.Map Tally.t :=
  fold_left (tallyAnswer poll) (Poll.answers poll) participantsMap.

Definition tallyRoom (room : Room.t) : JS.Map Tally.t :=
  fold_left tallyPoll (Room.polls room) [].

(** [userModel.find({ firebaseUID: { $in: userIds } }, ...)] *)
Definition findUsers (userIds : list string) (userModel : list User.t)
  : list User.t :=
  filter (fun u => existsb (String.eqb (User.firebaseUID u)) userIds) userModel.

(** The callback of [Array.from(participantsMap.values()).map]. *)
Definition toParticipant (users : list User.t) (p : Tally.t) : Participant.t :=
  let user := find (fun u => String.eqb (User.firebaseUID u) (Tally.userId p)) users in
  Participant.mk
    match user with
    | Some u => match User.firstName u with
                | Some n => n
                | None => "Anonymous"
                end
    | None => "Anonymous"
    end
    (Tally.score p) (Tally.correct p) (Tally.wrong p)
    (if Tally.timeTaken p >? 0
     then JS.numberToString (JS.ceilDiv (Tally.timeTaken p) 60) ++ " min"
     else "N/A").

(** The comparator [(a, b) => b.score - a.score]. *)
Definition byScore (a b : Participant.t) : Z :=
  Participant.score b - Participant.score a.

Definition toQuestion (poll : Poll.t) : Question.t :=
  Question.mk (Poll.question poll)
    (Z.of_nat (List.length (filter
       (fun a => Answer.answerIndex a =? Poll.correctOptionIndex poll)
       (Poll.answers poll)))).

Definition duration (room : Room.t) : string :=
  match Room.endedAt room, Room.createdAt room with
  | Some ended, Some created =>
      if JS.validTime ended && JS.validTime created
      then JS.numberToString
             (JS.ceilOfQuotient (JS.doubleOfZ (ended - created)) 60000)
           ++ " mins"
      else "NaN mins"
  | _, _ => "N/A"
  end.

Definition getPollAnalysis (roomCode : string) (rooms : Room.collection)
    (userModel : list User.t) : result Analysis.t :=
  match Room.findOne roomCode rooms with
  | None => Throw (Error "Room not found")
  | Some room =>
      let participantsMap := tallyRoom room in
      let userIds := JS.keys participantsMap in
      let users := findUsers userIds userModel in
      let participants := map (toParticipant users) (JS.values participantsMap) in
      let participants := JS.sort byScore participants in
      let questions := map toQuestion (Room.polls room) in
      Ok (Analysis.mk (Room._id room) (Room.name room) (Room.createdAt room)
            (duration room) participants questions)
  end.

Definition isRoomValid (code : string) (rooms : Room.collection) : bool :=
  match Room.findOne code rooms with
  | Some room => String.eqb (JS.toLowerCase (Room.status room)) "active"
  | None => false
  end.

Definition isRoomEnded (code : string) (rooms : Room.collection) : bool :=
  match Room.findOne code rooms with
  | Some room => String.eqb (Room.status room) "ended"
  | None => false
  end.

Definition endRoom (code : string) (rooms : Room.collection)
  : Room.collection * bool :=
  let (rooms', updated) :=
    Room.findOneAndUpdate code (Room.setStatus "ended") rooms in
  (rooms', match updated with Some _ => true | None => false end).

Definition canJoinRoom (code : string) (rooms : Room.collection) : bool :=
  match Room.findOne code rooms with
  | Some room => String.eqb (Room.status room) "active"
  | None => false
  end.


(** [getRoomsByTeacher(teacherId, status?)].  The optional [status] joins the
    query when it is truthy: neither [undefined] nor the empty string.  The
    store leaves the order of rooms with equal [createdAt] open; the stable
    order is taken here. *)
Definition getRoomsByTeacher (teacherId : string) (status : option string)
    (rooms : Room.collection) : Room.collection :=
  let query r :=
    String.eqb (Room.teacherId r) teacherId &&
    match status with
    | Some s => if String.eqb s EmptyString then true
                else String.eqb (Room.status r) s
    | None => true
    end in
  JS.sort Room.byCreatedAtDesc (Room.find query rooms).

Definition getRoomsByTeacherAndStatus (teacherId status : string)
    (rooms : Room.collection) : Room.collection :=
  Room.find (fun r => String.eqb (Room.teacherId r) teacherId &&
                      String.eqb (Room.status r) status) rooms.

Definition getAllRooms (rooms : Room.collection) : Room.collection :=
  Room.find (fun _ => true) rooms.

Definition getActiveRooms (rooms : Room.collection) : Room.collection :=
  Room.find (fun r => String.eqb (Room.status r) "active") rooms.

Definition getEndedRooms (rooms : Room.collection) : Room.collection :=
  Room.find (fun r => String.eqb (Room.status r) "ended") rooms.

End RoomService.

(** ** The example scenario: two polls, two students *)

Module Scenario.
Definition pollA : Poll.t :=
  Poll.mk "A" "first" ["x"; "y"] 1 30 1000
    [Answer.mk "u1" 1 1500; Answer.mk "u2" 0 1600].
Definition pollB : Poll.t :=
  Poll.mk "B" "second" ["x"; "y"] 0 30 2000
    [Answer.mk "u1" 0 2500; Answer.mk "u2" 0 2600].
Definition room : Room.t :=
  Room.mk "r1" "AB12CD" "Algebra" "teacher-1" (Some 0) None "active" [pollA; pollB].
Definition users : list User.t :=
  [User.mk "u1" (Some "Ada"); User.mk "u3" (Some "Cy")].
End Scenario.

(** ** Vocabulary of the properties *)

(** The answers of a room, each with the poll that holds it, in stored
    order. *)
Definition answersOf (room : Room.t) : list (Poll.t * Answer.t) :=
  flat_map (fun p => map (pair p) (Poll.answers p)) (Room.polls room).

Definition isCorrect (pa : Poll.t * Answer.t) : bool :=
  Answer.answerIndex (snd pa) =? Poll.correctOptionIndex (fst pa).

Definition answeredBy (u : string) (pa : Poll.t * Answer.t) : bool :=
  String.eqb (Answer.userId (snd pa)) u.

Definition countCorrect (u : string) (es : list (Poll.t * Answer.t)) : Z :=
  Z.of_nat (List.length (filter isCorrect (filter (answeredBy u) es))).

Definition countWrong (u : string) (es : list (Poll.t * Answer.t)) : Z :=
  Z.of_nat (List.length
    (filter (fun pa => negb (isCorrect pa)) (filter (answeredBy u) es))).

(** The distinct elements of a list, each at its first occurrence. *)
Definition distinct (us : list string) : list string :=
  fold_left (fun seen u => if existsb (String.eqb u) seen then seen else seen ++ [u])%list
    us [].

(** The students that answered in a room, in first-answer order. *)
Definition respondents (room : Room.t) : list string :=
  distinct (map (fun pa => Answer.userId (snd pa)) (answersOf room)).

(** The name the report shows for a student. *)
Definition displayName (userModel : list User.t) (u : string) : string :=
  match find (fun x => String.eqb (User.firebaseUID x) u) userModel with
  | Some x => match User.firstName x with Some n => n | None => "Anonymous" end
  | None => "Anonymous"
  end.

(** The tally of student [u] over the answers [es]. *)
Definition tallyOf (es : list (Poll.t * Answer.t)) (u : string) : Tally.t :=
  Tally.mk u (countCorrect u es) (countWrong u es)
    (5 * countCorrect u es - 2 * countWrong u es) 0.

(** The stored rooms carry one of the two states of the schema's [enum]. *)
Definition statusInEnum (rooms : Room.collection) : Prop :=
  forall r, In r rooms -> Room.status r = "active" \/ Room.status r = "ended".

(** What one more answer does to a tally. *)
Definition bump (hit : bool) (t : Tally.t) : Tally.t :=
  if hit
  then Tally.mk (Tally.userId t) (Tally.correct t + 1) (Tally.wrong t)
         (Tally.score t + 5) (Tally.timeTaken t)
  else Tally.mk (Tally.userId t) (Tally.correct t) (Tally.wrong t + 1)
         (Tally.score t - 2) (Tally.timeTaken t).

(** One turn of the loop, on an answer paired with its poll. *)
Definition step (m : JS.Map Tally.t) (pa : Poll.t * Answer.t) : JS.Map Tally.t :=
  RoomService.tallyAnswer (fst pa) m (snd pa).

(** The state of [participantsMap] after the answers [es]. *)
Definition tallied (es : list (Poll.t * Answer.t)) (m : JS.Map Tally.t) : Prop :=
  JS.keys m = distinct (map (fun pa => Answer.userId (snd pa)) es) /\
  forall u, In u (JS.keys m) -> JS.get u m = Some (tallyOf es u).

(** Descending by score. *)
Definition scoreGe (a b : Participant.t) : Prop :=
  Participant.score b <= Participant.score a.

(** The record the report holds for student [u] of [room]. *)
Definition expectedParticipant (userModel : list User.t) (room : Room.t)
    (u : string) : Participant.t :=
  let c := countCorrect u (answersOf room) in
  let w := countWrong u (answersOf room) in
  Participant.mk (displayName userModel u) (5 * c - 2 * w) c w "N/A".

(** Every character of a string passes a test. *)
Fixpoint allChars (p : ascii -> bool) (s : string) : bool :=
  match s with
  | EmptyString => true
  | String c r => p c && allChars p r
  end.

(** A digit of base 36 as [toString(36)] writes it: [0-9] or [a-z]. *)
Definition isDigit36 (c : ascii) : bool :=
  let n := nat_of_ascii c in
  (((48 <=? n) && (n <=? 57)) || ((97 <=? n) && (n <=? 122)))%nat.

(** An upper-case alphanumeric character: [0-9] or [A-Z]. *)
Definition isUpperAlnum (c : ascii) : bool :=
  let n := nat_of_ascii c in
  (((48 <=? n) && (n <=? 57)) || ((65 <=? n) && (n <=? 90)))%nat.

(** The strings [Number.prototype.toString(36)] gives for a number of
    [0, 1), the range of [Math.random()]: ["0"] for zero, otherwise ["0."]
    followed by one base-36 digit or more. *)
Definition isRandom36 (s : string) : bool :=
  match s with
  | String "0" EmptyString => true
  | String "0" (String "." ds) =>
      negb (String.eqb ds EmptyString) && allChars isDigit36 ds
  | _ => false
  end.

(** ** Comparison without regard to case, in the spec's words

    [isRoomValid] is to compare the status with [active]
    "case-insensitively": the two strings have the same length and, place by
    place, the same character or the same letter of [A-Z] in its two
    cases. *)

Definition isUpperLetter (c : ascii) : bool :=
  let n := nat_of_ascii c in ((65 <=? n) && (n <=? 90))%nat.

Definition sameLetterIgnoringCase (c d : ascii) : bool :=
  Ascii.eqb c d
  || (isUpperLetter c && Ascii.eqb (ascii_of_nat (nat_of_ascii c + 32)) d)
  || (isUpperLetter d && Ascii.eqb (ascii_of_nat (nat_of_ascii d + 32)) c).

Fixpoint equalsIgnoringCase (s t : string) : bool :=
  match s, t with
  | EmptyString, EmptyString => true
  | String c s', String d t' =>
      sameLetterIgnoringCase c d && equalsIgnoringCase s' t'
  | _, _ => false
  end.

(** ** The collections the service builds

    From the empty collection by calls of [createRoom] and [endRoom], the two
    operations of the service that write. *)
Inductive built : Room.collection -> Prop :=
| built_empty : built []
| built_createRoom random36 oid now name teacherId rooms :
    built rooms ->
    built (fst (RoomService.createRoom random36 oid now name teacherId rooms))
| built_endRoom code rooms :
    built rooms ->
    built (fst (RoomService.endRoom code rooms)).

(** ** Further scenarios *)

Module Cases.
Definition report : Analysis.t :=
  Analysis.mk "r1" "Algebra" (Some 0) "N/A"
    [Participant.mk "Ada" 10 2 0 "N/A"; Participant.mk "Anonymous" 3 1 1 "N/A"]
    [Question.mk "first" 1; Question.mk "second" 2].

(** A student that sent the same answer twice to one poll. *)
Definition twice : Room.t :=
  Room.mk "r2" "ZZ99ZZ" "Twice" "teacher-1" (Some 0) None "active"
    [Poll.mk "A" "first" ["x"; "y"] 1 30 1000
       [Answer.mk "u1" 1 1500; Answer.mk "u1" 1 1501; Answer.mk "u2" 0 1600]].


(** A room document that carries both dates, 61 seconds apart. *)
Definition dated : Room.t :=
  Room.mk "r5" "DD22DD" "Dated" "teacher-1" (Some 1000) (Some 62000) "ended" [].

(** A room whose status is spelled with a capital. *)
Definition capital : Room.t :=
  Room.mk "r7" "CA44CA" "Capital" "teacher-1" (Some 0) None "Active" [].

(** An ended room beside an active one. *)
Definition ended : Room.t :=
  Room.mk "r4" "EN0000" "Old" "teacher-1" (Some 0) None "ended" [].
End Cases.

(** ** The teacher's page: generated questions *)

Module TeacherPollRoom.

Record GeneratedQuestion : Type := mkQuestion {
  question : string;
  options : list string;
  correctOptionIndex : Z
}.

(** An option of a question as the generation endpoint sends it; [text] may
    be missing, [correct] is read for its truth value. *)
Record APIOption : Type := mkOption {
  text : option string;
  correct : bool
}.

(** A question of the endpoint; [apiOptions] is [None] when the field is no
    array. *)
Record APIQuestion : Type := mkAPI {
  questionText : string;
  apiOptions : option (list APIOption)
}.

(** The callback of [.map] in [cleanQuestions], on a question that passed
    the filter before it ([questionText] is a string).  Where the page cleans
    a second time the callback also empties the set of launched questions, a
    state that is not kept here. *)
Definition toGeneratedQuestion (q : APIQuestion) : GeneratedQuestion :=
  let options :=
    match apiOptions q with
    | Some os => map (fun opt => match text opt with
                                 | Some t => t
                                 | None => EmptyString
                                 end) os
    | None => []
    end in
  let correctOptionIndex :=
    match apiOptions q with
    | Some os => JS.findIndex correct os
    | None => 0
    end in
  let validCorrectOptionIndex :=
    if (0 <=? correctOptionIndex)
       && (correctOptionIndex <? Z.of_nat (List.length options))
    then correctOptionIndex else 0 in
  mkQuestion (questionText q) options validCorrectOptionIndex.

(** The two navigation buttons of the question card, on the index of the
    card and the number of generated questions. *)
Definition previousIndex (currentQuestionIndex length : Z) : option Z :=
  JS.remainder (currentQuestionIndex - 1 + length) length.

Definition nextIndex (currentQuestionIndex length : Z) : option Z :=
  JS.remainder (currentQuestionIndex + 1) length.

(** The state [deleteGeneratedQuestion] reads and sets; positions are
    natural numbers, [None] is [null]. *)
Record Editor : Type := mkEditor {
  generatedQuestions : list GeneratedQuestion;
  editingQuestionIndex : option nat;
  showPreview : bool
}.

Definition deleteGeneratedQuestion (index : nat) (st : Editor) : Editor :=
  let updated :=
    JS.filterIndex (fun i => negb (Nat.eqb i index)) (generatedQuestions st) in
  let editing :=
    match editingQuestionIndex st with
    | Some e => if Nat.eqb e index then None
                else if Nat.ltb index e then Some (e - 1)%nat
                else Some e
    | None => None
    end in
  let preview :=
    if Nat.eqb (List.length updated) 0 then false else showPreview st in
  mkEditor updated editing preview.

(** The value of [filterQuestionOptions]: the options may hold [undefined],
    the value of [options[correctOptionIndex]] for an index outside the
    options. *)
Record FilteredQuestion : Type := mkFiltered {
  filteredQuestion : string;
  filteredOptions : list (option string);
  newCorrectIndex : Z
}.

(** The loop that puts the incorrect options into the free places. *)
Definition fillIncorrect (skip : Z) (shuffledIncorrect : list string)
    (filteredOptions : list (option string)) : list (option string) :=
  fst (fold_left
         (fun '(arr, incorrectIndex) i =>
            if negb (Z.of_nat i =? skip)
               && (incorrectIndex <? List.length shuffledIncorrect)%nat
            then (JS.setAt (Z.of_nat i)
                    (nth_error shuffledIncorrect incorrectIndex) arr,
                  S incorrectIndex)
            else (arr, incorrectIndex))
         [0; 1; 2; 3]%nat (filteredOptions, 0%nat)).

Section FilterQuestionOptions.

(** What the environment gives: [String.prototype.trim], the array that
    [sort(() => Math.random() - 0.5)] leaves, and the value of
    [Math.floor(Math.random() * 4)]. *)
Variable trim : string -> string.
Variable shuffle : list string -> list string.
Variable random4 : nat.

Definition filterQuestionOptions (questionData : GeneratedQuestion)
  : FilteredQuestion :=
  let correctOption :=
    JS.getAt (correctOptionIndex questionData) (options questionData) in
  if (List.length (options questionData) <=? 4)%nat
  then
    mkFiltered (question questionData)
      (map Some (options questionData)
       ++ repeat (Some EmptyString) (4 - List.length (options questionData)))%list
      (correctOptionIndex questionData)
  else
    let incorrectOptions :=
      filter (fun opt => negb (String.eqb (trim opt) EmptyString))
        (JS.filterIndex
           (fun idx => negb (Z.of_nat idx =? correctOptionIndex questionData))
           (options questionData)) in
    let shuffledIncorrect := firstn 3 (shuffle incorrectOptions) in
    if correctOptionIndex questionData <? 4
    then
      mkFiltered (question questionData)
        (fillIncorrect (correctOptionIndex questionData) shuffledIncorrect
           (JS.setAt (correctOptionIndex questionData) correctOption
              (repeat (Some EmptyString) 4)))
        (correctOptionIndex questionData)
    else
      let newCorrectIndex := Z.of_nat random4 in
      mkFiltered (question questionData)
        (fillIncorrect newCorrectIndex shuffledIncorrect
           (JS.setAt newCorrectIndex correctOption
              (repeat (Some EmptyString) 4)))
        newCorrectIndex.

End FilterQuestionOptions.

End TeacherPollRoom.

(** ** The student's page: open polls *)

Module StudentPollRoom.

Record Poll : Type := mkPoll {
  id : string;
  question : string;
  options : list string;
  roomCode : string;
  creatorId : string;
  createdAt : Z;
  timer : Z
}.

(** The state update of [submitAnswer]: [{ ...prev, [pollId]: answerIndex }]
    copies the own properties of [prev] and defines the own property
    [pollId], whatever its name.  [answeredPolls] is a plain object, kept as
    its own properties. *)
Definition submitAnswer (pollId : string) (answerIndex : Z)
    (answeredPolls : JS.Map Z) : JS.Map Z :=
  JS.set pollId answerIndex answeredPolls.

(** [polls.filter(p => answeredPolls[p.id] === undefined)] *)
Definition activePolls (polls : list Poll) (answeredPolls : JS.Map Z)
  : list Poll :=
  filter (fun p => match JS.readProperty (id p) answeredPolls with
                   | JS.Undefined => true
                   | _ => false
                   end) polls.

End StudentPollRoom.

(** ** Vocabulary of the further properties *)

Definition sumZ (l : list Z) : Z := fold_right Z.add 0 l.

(** The room codes of the collection are distinct. *)
Definition uniqueCodes (rooms : Room.collection) : Prop :=
  NoDup (map Room.roomCode rooms).

(** The room code [createRoom] makes of a draw. *)
Definition codeOf (random36 : string) : string :=
  JS.toUpperCase (JS.substring 2 8 random36).

(** The document [createRoom] hands to [save]. *)
Definition newRoom (random36 oid : string) (now : Z) (name teacherId : string)
  : Room.t :=
  Room.mk oid (codeOf random36) name teacherId (Some now) None "active" [].

(** Later or equal in [createdAt], absent values last. *)
Definition createdGe (a b : Room.t) : Prop :=
  0 <= Room.compareCreatedAt (Room.createdAt a) (Room.createdAt b).

(** The numbers of a participant record, without the name. *)
Definition marks (p : Participant.t) : Z * Z * Z :=
  (Participant.score p, Participant.correct p, Participant.wrong p).

(** The answers of a room as the scoring sees them: who answered, and
    whether the answer hit the correct option of its poll. *)
Definition outcomes (room : Room.t) : list (string * bool) :=
  map (fun pa => (Answer.userId (snd pa), isCorrect pa)) (answersOf room).

(** * Lemmas *)

(** ** Facts on the primitives *)

Section MapFacts.
Context {V : Type}.
Implicit Types (m : JS.Map V) (k : string) (v : V).

Lemma has_In k m : JS.has k m = true <-> In k (JS.keys m).
Proof.
  induction m as [|[k' v'] m IH]; simpl.
  - split; [discriminate | tauto].
  - destruct (String.eqb_spec k' k) as [->|Hne].
    + split; auto.
    + rewrite IH. split; [auto | intros [H|H]; [contradiction | exact H]].
Qed.


Lemma get_Some_In k v m : JS.get k m = Some v -> In k (JS.keys m).
Proof.
  induction m as [|[k' v'] m IH]; simpl; [discriminate|].
  destruct (String.eqb_spec k' k) as [->|Hne]; auto.
Qed.

Lemma get_set_same k v m : JS.get k (JS.set k v m) = Some v.
Proof.
  induction m as [|[k' v'] m IH]; simpl.
  - now rewrite String.eqb_refl.
  - destruct (String.eqb k' k) eqn:E; simpl; rewrite E; auto.
Qed.

Lemma get_set_other k k' v m :
  k' <> k -> JS.get k' (JS.set k v m) = JS.get k' m.
Proof.
  intros Hne. induction m as [|[k0 v0] m IH]; simpl.
  - destruct (String.eqb_spec k k'); [congruence | reflexivity].
  - destruct (String.eqb_spec k0 k) as [->|Hk]; simpl.
    + destruct (String.eqb_spec k k'); [congruence | reflexivity].
    + now rewrite IH.
Qed.

Lemma keys_set k v m :
  JS.keys (JS.set k v m) =
  if JS.has k m then JS.keys m else (JS.keys m ++ [k])%list.
Proof.
  induction m as [|[k0 v0] m IH]; simpl; [reflexivity|].
  destruct (String.eqb k0 k); simpl; [reflexivity|].
  rewrite IH. now destruct (JS.has k m).
Qed.

(** A map whose keys are distinct is determined by its [get]. *)
Lemma values_by_get (f : string -> V) m :
  NoDup (JS.keys m) ->
  (forall k v, JS.get k m = Some v -> v = f k) ->
  JS.values m = map f (JS.keys m).
Proof.
  induction m as [|[k0 v0] m IH]; simpl; intros Hnd Hget; [reflexivity|].
  inversion Hnd as [|? ? Hnotin Hnd']; subst.
  f_equal.
  - apply Hget. now rewrite String.eqb_refl.
  - apply IH; [exact Hnd'|].
    intros k v Hk. apply Hget.
    destruct (String.eqb_spec k0 k) as [->|Hne]; [|exact Hk].
    exfalso. apply Hnotin. eapply get_Some_In; eauto.
Qed.
End MapFacts.

Lemma existsb_eqb_In (u : string) (l : list string) :
  existsb (String.eqb u) l = true <-> In u l.
Proof.
  rewrite existsb_exists. split.
  - intros [x [Hx Hux]]. apply String.eqb_eq in Hux. now subst.
  - intros H. exists u. split; [exact H | apply String.eqb_refl].
Qed.

Lemma has_existsb {V : Type} (k : string) (m : JS.Map V) :
  JS.has k m = existsb (String.eqb k) (JS.keys m).
Proof.
  induction m as [|[k' v'] m IH]; simpl; [reflexivity|].
  rewrite (String.eqb_sym k k'). now destruct (String.eqb k' k).
Qed.

Section DistinctFacts.
Implicit Types (u : string) (us : list string).

Lemma distinct_snoc us u :
  distinct (us ++ [u]) =
  if existsb (String.eqb u) (distinct us) then distinct us
  else (distinct us ++ [u])%list.
Proof. unfold distinct. now rewrite fold_left_app. Qed.

Lemma In_distinct us u : In u (distinct us) <-> In u us.
Proof.
  revert u. induction us as [|x us IH] using rev_ind; intros u; [reflexivity|].
  rewrite distinct_snoc, in_app_iff. simpl.
  destruct (existsb (String.eqb x) (distinct us)) eqn:E.
  - apply existsb_eqb_In, IH in E. rewrite IH.
    split; [tauto | intros [H|[<-|[]]]; assumption].
  - rewrite in_app_iff, IH. simpl. tauto.
Qed.

Lemma NoDup_distinct us : NoDup (distinct us).
Proof.
  induction us as [|x us IH] using rev_ind; [constructor|].
  rewrite distinct_snoc.
  destruct (existsb (String.eqb x) (distinct us)) eqn:E; [exact IH|].
  apply (Permutation_NoDup (Permutation_cons_append (distinct us) x)).
  constructor; [|exact IH].
  intros Hin. apply existsb_eqb_In in Hin. congruence.
Qed.
End DistinctFacts.

(** ** The accumulation loop *)

Section Counting.
Implicit Types (es : list (Poll.t * Answer.t)) (pa : Poll.t * Answer.t).

Lemma countCorrect_snoc u es pa :
  countCorrect u (es ++ [pa]) =
  countCorrect u es + (if answeredBy u pa && isCorrect pa then 1 else 0).
Proof.
  unfold countCorrect. rewrite filter_app. simpl.
  destruct (answeredBy u pa); simpl;
    rewrite ?filter_app, ?app_nil_r; simpl; [|lia].
  destruct (isCorrect pa); rewrite ?length_app, ?app_nil_r; simpl; lia.
Qed.

Lemma countWrong_snoc u es pa :
  countWrong u (es ++ [pa]) =
  countWrong u es + (if answeredBy u pa && negb (isCorrect pa) then 1 else 0).
Proof.
  unfold countWrong. rewrite filter_app. simpl.
  destruct (answeredBy u pa); simpl;
    rewrite ?filter_app, ?app_nil_r; simpl; [|lia].
  destruct (isCorrect pa); simpl; rewrite ?length_app, ?app_nil_r; simpl; lia.
Qed.

(** A student that has not answered has both counts at zero. *)
Lemma count_absent u es :
  ~ In u (map (fun pa => Answer.userId (snd pa)) es) ->
  filter (answeredBy u) es = [].
Proof.
  induction es as [|pa es IH]; simpl; intros Hn; [reflexivity|].
  unfold answeredBy at 1.
  destruct (String.eqb_spec (Answer.userId (snd pa)) u) as [E|E].
  - exfalso. apply Hn. now left.
  - apply IH. tauto.
Qed.
End Counting.

Lemma tallyOf_snoc es pa u :
  tallyOf (es ++ [pa]) u =
  if answeredBy u pa then bump (isCorrect pa) (tallyOf es u) else tallyOf es u.
Proof.
  unfold tallyOf, bump. rewrite countCorrect_snoc, countWrong_snoc.
  destruct (answeredBy u pa), (isCorrect pa); cbn [andb negb Tally.userId
    Tally.correct Tally.wrong Tally.score Tally.timeTaken];
    f_equal; lia.
Qed.

Lemma tallyRoom_fold (room : Room.t) :
  RoomService.tallyRoom room = fold_left step (answersOf room) [].
Proof.
  unfold RoomService.tallyRoom, answersOf.
  generalize (@nil (string * Tally.t)) as m.
  induction (Room.polls room) as [|p ps IH]; intros m; simpl; [reflexivity|].
  rewrite fold_left_app, IH. f_equal.
  unfold RoomService.tallyPoll.
  generalize m. induction (Poll.answers p) as [|a l IHl]; intros m0; simpl;
    [reflexivity | apply IHl].
Qed.

Lemma tallied_step es m pa :
  tallied es m -> tallied (es ++ [pa]) (step m pa).
Proof.
  intros [Hkeys Hget].
  set (u0 := Answer.userId (snd pa)).
  set (m1 := if negb (JS.has u0 m)
             then JS.set u0 (Tally.mk u0 0 0 0 0) m else m).
  assert (Hm1 : JS.get u0 m1 = Some (tallyOf es u0)).
  { unfold m1. destruct (JS.has u0 m) eqn:E; simpl.
    - apply Hget. now apply has_In.
    - rewrite get_set_same. f_equal. unfold tallyOf, countCorrect, countWrong.
      rewrite count_absent; [reflexivity|].
      rewrite <- In_distinct, <- Hkeys, <- has_In. congruence. }
  assert (Hk1 : JS.keys m1 =
                if JS.has u0 m then JS.keys m else (JS.keys m ++ [u0])%list).
  { unfold m1. destruct (JS.has u0 m) eqn:E; simpl; [reflexivity|].
    now rewrite keys_set, E. }
  assert (Hh1 : JS.has u0 m1 = true).
  { apply has_In. eapply get_Some_In; eauto. }
  assert (Hother : forall u, u <> u0 -> JS.get u m1 = JS.get u m).
  { intros u Hu. unfold m1. destruct (JS.has u0 m); simpl; [reflexivity|].
    now apply get_set_other. }
  unfold step, RoomService.tallyAnswer. fold u0. fold m1. rewrite Hm1.
  split.
  - rewrite keys_set, Hh1, Hk1, map_app. cbn [map].
    rewrite distinct_snoc. fold u0. now rewrite <- Hkeys, <- has_existsb.
  - intros u Hu. rewrite keys_set, Hh1 in Hu.
    destruct (String.eqb_spec u u0) as [->|Hne].
    + rewrite get_set_same, tallyOf_snoc. f_equal.
      unfold answeredBy. fold u0. rewrite String.eqb_refl.
      unfold bump. fold (isCorrect pa). now destruct (isCorrect pa).
    + rewrite get_set_other by exact Hne. rewrite Hother by exact Hne.
      assert (Hin : In u (JS.keys m)).
      { rewrite Hk1 in Hu. destruct (JS.has u0 m); [exact Hu|].
        apply in_app_iff in Hu. destruct Hu as [H|[H|[]]]; congruence. }
      rewrite (Hget u Hin), tallyOf_snoc. unfold answeredBy. fold u0.
      destruct (String.eqb_spec u0 u); [congruence | reflexivity].
Qed.

Lemma tallied_fold es : tallied es (fold_left step es []).
Proof.
  induction es as [|pa es IH] using rev_ind.
  - split; [reflexivity | intros u []].
  - rewrite fold_left_app. simpl. now apply tallied_step.
Qed.

(** The accumulator map of a room: one entry per respondent, in first-answer
    order, holding that student's counts. *)
Lemma tallyRoom_spec (room : Room.t) :
  JS.keys (RoomService.tallyRoom room) = respondents room /\
  JS.values (RoomService.tallyRoom room) =
    map (tallyOf (answersOf room)) (respondents room).
Proof.
  rewrite tallyRoom_fold.
  destruct (tallied_fold (answersOf room)) as [Hkeys Hget].
  split; [exact Hkeys|].
  unfold respondents. rewrite <- Hkeys.
  apply values_by_get.
  - rewrite Hkeys. apply NoDup_distinct.
  - intros k v Hk. pose proof (get_Some_In _ _ _ Hk) as Hin.
    rewrite (Hget k Hin) in Hk. congruence.
Qed.

(** ** The sort and the name lookup *)

Section SortFacts.
Context {A : Type} (cmp : A -> A -> Z).

Lemma insert_Permutation x l : Permutation (JS.insert cmp x l) (x :: l).
Proof.
  induction l as [|y r IH]; simpl; [reflexivity|].
  destruct (cmp y x <? 0); [|reflexivity].
  rewrite IH. apply perm_swap.
Qed.

Lemma sort_Permutation l : Permutation (JS.sort cmp l) l.
Proof.
  induction l as [|x r IH]; simpl; [reflexivity|].
  rewrite insert_Permutation. now constructor.
Qed.
End SortFacts.

Lemma insert_byScore_sorted x l :
  StronglySorted scoreGe l ->
  StronglySorted scoreGe (JS.insert RoomService.byScore x l).
Proof.
  induction 1 as [|y r Hr IH Hy]; simpl.
  - repeat constructor.
  - unfold RoomService.byScore at 1.
    destruct (Z.ltb_spec (Participant.score x - Participant.score y) 0) as [Hlt|Hge].
    + constructor; [exact IH|].
      apply (Permutation_Forall (Permutation_sym (insert_Permutation _ x r))).
      constructor; [unfold scoreGe; lia | exact Hy].
    + constructor; [now constructor|].
      constructor; [unfold scoreGe; lia|].
      eapply Forall_impl; [|exact Hy].
      unfold scoreGe. intros z Hz. lia.
Qed.

Lemma sort_byScore_sorted l :
  StronglySorted scoreGe (JS.sort RoomService.byScore l).
Proof.
  induction l as [|x r IH]; simpl; [constructor|].
  now apply insert_byScore_sorted.
Qed.

Lemma find_filter {A : Type} (p q : A -> bool) (l : list A) :
  (forall x, p x = true -> q x = true) ->
  find p (filter q l) = find p l.
Proof.
  intros Hpq. induction l as [|x l IH]; simpl; [reflexivity|].
  destruct (q x) eqn:Eq; simpl.
  - now rewrite IH.
  - destruct (p x) eqn:Ep; [|exact IH].
    apply Hpq in Ep. congruence.
Qed.

Lemma toParticipant_tallyOf userModel room ids u :
  In u ids ->
  RoomService.toParticipant (RoomService.findUsers ids userModel)
    (tallyOf (answersOf room) u) = expectedParticipant userModel room u.
Proof.
  intros Hin. unfold RoomService.toParticipant, expectedParticipant, displayName.
  unfold RoomService.findUsers. cbn [tallyOf Tally.userId Tally.score
    Tally.correct Tally.wrong Tally.timeTaken].
  rewrite find_filter; [reflexivity|].
  intros x Hx. apply String.eqb_eq in Hx. rewrite Hx.
  now apply existsb_eqb_In.
Qed.

(** The participants of the report, before the sort. *)
Lemma participants_unsorted userModel room :
  map (RoomService.toParticipant
         (RoomService.findUsers (JS.keys (RoomService.tallyRoom room)) userModel))
      (JS.values (RoomService.tallyRoom room)) =
  map (expectedParticipant userModel room) (respondents room).
Proof.
  destruct (tallyRoom_spec room) as [Hk Hv]. rewrite Hk, Hv, map_map.
  apply map_ext_in. intros u Hu. now apply toParticipant_tallyOf.
Qed.

Lemma getPollAnalysis_Ok code rooms userModel rep :
  RoomService.getPollAnalysis code rooms userModel = Ok rep ->
  exists room,
    Room.findOne code rooms = Some room /\
    Analysis.participants rep =
      JS.sort RoomService.byScore
        (map (expectedParticipant userModel room) (respondents room)) /\
    Analysis.questions rep = map RoomService.toQuestion (Room.polls room).
Proof.
  unfold RoomService.getPollAnalysis.
  destruct (Room.findOne code rooms) as [room|]; [|discriminate].
  intros H. injection H as <-. exists room. cbn [Analysis.participants Analysis.questions].
  now rewrite participants_unsorted.
Qed.

Lemma findOne_Some code rooms room :
  Room.findOne code rooms = Some room ->
  In room rooms /\ Room.roomCode room = code.
Proof.
  induction rooms as [|r rest IH]; simpl; [discriminate|].
  destruct (String.eqb_spec (Room.roomCode r) code) as [E|E].
  - intros H. injection H as <-. auto.
  - intros H. destruct (IH H). auto.
Qed.

Lemma findOne_None code rooms :
  Room.findOne code rooms = None <->
  forall r, In r rooms -> Room.roomCode r <> code.
Proof.
  induction rooms as [|r rest IH]; simpl.
  - split; [intros _ r [] | reflexivity].
  - destruct (String.eqb_spec (Room.roomCode r) code) as [E|E].
    + split; [discriminate | intros H; exfalso; apply (H r); auto].
    + rewrite IH. split.
      * intros H x [<-|Hx]; auto.
      * intros H x Hx. apply H. now right.
Qed.

Lemma In_answersOf room p a :
  In (p, a) (answersOf room) <-> In p (Room.polls room) /\ In a (Poll.answers p).
Proof.
  unfold answersOf. rewrite in_flat_map. split.
  - intros [q [Hq Hin]]. apply in_map_iff in Hin.
    destruct Hin as [b [Hb Hin]]. injection Hb as -> ->. auto.
  - intros [Hp Ha]. exists p. split; [exact Hp|]. now apply in_map.
Qed.

(** ** Facts on the room collection *)

Lemma findOne_unique code rooms room :
  NoDup (map Room.roomCode rooms) ->
  In room rooms -> Room.roomCode room = code ->
  Room.findOne code rooms = Some room.
Proof.
  induction rooms as [|r rest IH]; simpl; intros Hnd Hin Hcode; [contradiction|].
  inversion Hnd as [|? ? Hnotin Hnd']; subst.
  destruct Hin as [->|Hin].
  - now rewrite String.eqb_refl.
  - destruct (String.eqb_spec (Room.roomCode r) (Room.roomCode room)) as [E|E].
    + exfalso. apply Hnotin. rewrite E. now apply in_map.
    + now apply IH.
Qed.

Lemma findOneAndUpdate_found code update rooms room :
  (forall r, Room.roomCode (update r) = Room.roomCode r) ->
  Room.findOne code rooms = Some room ->
  exists rooms',
    Room.findOneAndUpdate code update rooms = (rooms', Some (update room)) /\
    Room.findOne code rooms' = Some (update room) /\
    List.length rooms' = List.length rooms.
Proof.
  intros Hcode. induction rooms as [|r rest IH]; simpl; [discriminate|].
  destruct (String.eqb_spec (Room.roomCode r) code) as [E|E].
  - intros H. injection H as <-. eexists. split; [reflexivity|].
    simpl. rewrite Hcode, E, String.eqb_refl. auto.
  - intros H. destruct (IH H) as [rest' [Hupd [Hfind Hlen]]].
    rewrite Hupd. eexists. split; [reflexivity|]. simpl.
    destruct (String.eqb_spec (Room.roomCode r) code); [contradiction|].
    auto.
Qed.

Lemma findOneAndUpdate_missing code update rooms :
  Room.findOne code rooms = None ->
  Room.findOneAndUpdate code update rooms = (rooms, None).
Proof.
  induction rooms as [|r rest IH]; simpl; [reflexivity|].
  destruct (String.eqb (Room.roomCode r) code); [discriminate|].
  intros H. now rewrite (IH H).
Qed.

(** What [endRoom] changes: at most the first room with the code, and there
    only [status]. *)
Lemma endRoom_frame code rooms :
  Forall2 (fun r r' =>
             r' = r \/ (Room.roomCode r = code /\ r' = Room.setStatus "ended" r))
          rooms (fst (RoomService.endRoom code rooms)).
Proof.
  unfold RoomService.endRoom.
  induction rooms as [|r rest IH]; simpl; [constructor|].
  destruct (String.eqb_spec (Room.roomCode r) code) as [E|E]; simpl.
  - constructor; [now right|].
    clear. induction rest; constructor; auto.
  - destruct (Room.findOneAndUpdate code (Room.setStatus "ended") rest)
      as [rest' found]; simpl in *.
    constructor; [now left | exact IH].
Qed.

Lemma setStatus_fields s r :
  Room._id (Room.setStatus s r) = Room._id r /\
  Room.roomCode (Room.setStatus s r) = Room.roomCode r /\
  Room.name (Room.setStatus s r) = Room.name r /\
  Room.teacherId (Room.setStatus s r) = Room.teacherId r /\
  Room.createdAt (Room.setStatus s r) = Room.createdAt r /\
  Room.endedAt (Room.setStatus s r) = Room.endedAt r /\
  Room.polls (Room.setStatus s r) = Room.polls r /\
  Room.status (Room.setStatus s r) = s.
Proof. repeat split. Qed.

Lemma statusInEnum_endRoom code rooms :
  statusInEnum rooms -> statusInEnum (fst (RoomService.endRoom code rooms)).
Proof.
  intros H. unfold statusInEnum in *.
  induction (endRoom_frame code rooms) as [|r r' l l' Hr _ IH];
    intros x Hin; [destruct Hin|].
  destruct Hin as [<-|Hin].
  - destruct Hr as [->|[_ ->]]; [apply H; now left | now right].
  - apply IH; [|exact Hin]. intros y Hy. apply H. now right.
Qed.

Lemma statusInEnum_createRoom random36 oid now name teacherId rooms :
  statusInEnum rooms ->
  statusInEnum (fst (RoomService.createRoom random36 oid now name teacherId rooms)).
Proof.
  intros H. unfold RoomService.createRoom, Room.save.
  cbn [Room.roomCode Room.name Room.teacherId].
  repeat match goal with
         | |- context [if ?b then _ else _] => destruct b; [exact H|]
         end.
  intros r Hin. cbn [fst] in Hin. apply in_app_iff in Hin.
  destruct Hin as [Hin|[<-|[]]]; [now apply H | now left].
Qed.

(** ** The room code *)

Lemma upperChar_digit36 c : isDigit36 c = true -> isUpperAlnum (JS.upperChar c) = true.
Proof.
  destruct c as [[] [] [] [] [] [] [] []]; vm_compute; congruence.
Qed.

Lemma allChars_toUpperCase_prefix n ds :
  allChars isDigit36 ds = true ->
  allChars isUpperAlnum (JS.toUpperCase (String.substring 0 n ds)) = true.
Proof.
  revert ds. induction n as [|n IH]; intros [|c ds]; simpl; auto.
  intros H. apply andb_true_iff in H. destruct H as [Hc Hds].
  now rewrite upperChar_digit36, IH.
Qed.

Lemma length_toUpperCase s : String.length (JS.toUpperCase s) = String.length s.
Proof. induction s; simpl; congruence. Qed.

Lemma length_prefix n s :
  String.length (String.substring 0 n s) = Nat.min n (String.length s).
Proof.
  revert s. induction n as [|n IH]; intros [|c s]; simpl; auto.
Qed.

Lemma checkRequired_length s :
  Room.checkRequired s = true <-> (1 <= String.length s)%nat.
Proof.
  unfold Room.checkRequired. destruct s; simpl; split; auto; try lia; discriminate.
Qed.

(** What a successful [save] stores and returns. *)
Lemma save_Ok doc rooms rooms' room :
  Room.save doc rooms = (rooms', Ok room) ->
  room = doc /\ rooms' = (rooms ++ [doc])%list /\
  Room.checkRequired (Room.roomCode doc) = true /\
  Room.findOne (Room.roomCode doc) rooms = None.
Proof.
  unfold Room.save.
  destruct (Room.checkRequired (Room.roomCode doc)); simpl; [|discriminate].
  destruct (Room.checkRequired (Room.name doc)); simpl; [|discriminate].
  destruct (Room.checkRequired (Room.teacherId doc)); simpl; [|discriminate].
  destruct (Room.findOne (Room.roomCode doc) rooms); [discriminate|].
  intros H. injection H as <- <-. auto.
Qed.



(** * Properties *)

(** C1.  The report of a room holds, for every student that answered, the
    record whose [correct] is the number of that student's stored answers
    that hit the correct option of their poll, whose [wrong] is the number of
    the student's other answers, and whose [score] is [5*correct - 2*wrong];
    the two counts add up to the number of the student's stored answers, so
    each answer, a repeated one too, counts once. *)
Theorem getPollAnalysis_tallies code rooms userModel rep :
  RoomService.getPollAnalysis code rooms userModel = Ok rep ->
  exists room,
    Room.findOne code rooms = Some room /\
    Analysis.participants rep =
      JS.sort RoomService.byScore
        (map (expectedParticipant userModel room) (respondents room)) /\
    Permutation (Analysis.participants rep)
      (map (expectedParticipant userModel room) (respondents room)) /\
    (forall u,
       Participant.correct (expectedParticipant userModel room u) =
         Z.of_nat (List.length (filter isCorrect
                     (filter (answeredBy u) (answersOf room)))) /\
       Participant.wrong (expectedParticipant userModel room u) =
         Z.of_nat (List.length (filter (fun pa => negb (isCorrect pa))
                     (filter (answeredBy u) (answersOf room)))) /\
       Participant.score (expectedParticipant userModel room u) =
         5 * Participant.correct (expectedParticipant userModel room u)
         - 2 * Participant.wrong (expectedParticipant userModel room u) /\
       Participant.correct (expectedParticipant userModel room u)
         + Participant.wrong (expectedParticipant userModel room u) =
         Z.of_nat (List.length (filter (answeredBy u) (answersOf room)))).
Proof.
  intros H. destruct (getPollAnalysis_Ok _ _ _ _ H) as [room [Hfind [Hp _]]].
  exists room. split; [exact Hfind|]. split; [exact Hp|].
  split; [rewrite Hp; apply sort_Permutation|].
  intros u. cbn [expectedParticipant Participant.correct Participant.wrong
    Participant.score]. repeat split.
  unfold countCorrect, countWrong.
  induction (filter (answeredBy u) (answersOf room)) as [|pa l IH];
    [reflexivity|].
  cbn [filter]. destruct (isCorrect pa); cbn [negb List.length]; lia.
Qed.

Lemma getPollAnalysis_tallies_witness :
  RoomService.getPollAnalysis "AB12CD" [Scenario.room] Scenario.users
    = Ok Cases.report /\
  exists room,
    Room.findOne "AB12CD" [Scenario.room] = Some room /\
    Analysis.participants Cases.report =
      JS.sort RoomService.byScore
        (map (expectedParticipant Scenario.users room) (respondents room)).
Proof.
  split; [reflexivity|].
  destruct (getPollAnalysis_tallies "AB12CD" [Scenario.room] Scenario.users
              Cases.report eq_refl) as [room [Hf [Hp _]]].
  exists room. split; assumption.
Defined.

(** Repeated answers are not merged: both copies count. *)
Example getPollAnalysis_twice :
  RoomService.getPollAnalysis "ZZ99ZZ" [Cases.twice] [] =
  Ok (Analysis.mk "r2" "Twice" (Some 0) "N/A"
        [Participant.mk "Anonymous" 10 2 0 "N/A";
         Participant.mk "Anonymous" (-2) 0 1 "N/A"]
        [Question.mk "first" 2]).
Proof. reflexivity. Qed.

(** C3.  The participants of the report are one record for each distinct
    [userId] that occurs in an answer of a poll of the room, and no other; a
    room without polls has neither participants nor questions. *)
Theorem participants_one_per_respondent code rooms userModel rep :
  RoomService.getPollAnalysis code rooms userModel = Ok rep ->
  exists room,
    Room.findOne code rooms = Some room /\
    NoDup (respondents room) /\
    (forall u, In u (respondents room) <->
               exists p a, In p (Room.polls room) /\ In a (Poll.answers p) /\
                           Answer.userId a = u) /\
    JS.keys (RoomService.tallyRoom room) = respondents room /\
    map Tally.userId (JS.values (RoomService.tallyRoom room)) = respondents room /\
    Permutation (Analysis.participants rep)
      (map (expectedParticipant userModel room) (respondents room)) /\
    List.length (Analysis.participants rep) = List.length (respondents room) /\
    (Room.polls room = [] ->
       Analysis.participants rep = [] /\ Analysis.questions rep = []).
Proof.
  intros H. destruct (getPollAnalysis_Ok _ _ _ _ H) as [room [Hfind [Hp Hq]]].
  assert (Hperm : Permutation (Analysis.participants rep)
            (map (expectedParticipant userModel room) (respondents room)))
    by (rewrite Hp; apply sort_Permutation).
  exists room. split; [exact Hfind|].
  split; [apply NoDup_distinct|].
  split.
  { intros u. unfold respondents. rewrite In_distinct, in_map_iff. split.
    - intros [[p a] [Hu Hin]]. apply In_answersOf in Hin. simpl in Hu.
      exists p, a. tauto.
    - intros [p [a [Hp' [Ha Hu]]]]. exists (p, a). split; [exact Hu|].
      now apply In_answersOf. }
  destruct (tallyRoom_spec room) as [Hk Hv].
  split; [exact Hk|].
  split; [rewrite Hv, map_map; apply map_id|].
  split; [exact Hperm|].
  split; [rewrite (Permutation_length Hperm); apply length_map|].
  intros Hnil. rewrite Hp, Hq. unfold respondents, answersOf.
  now rewrite Hnil.
Qed.

Lemma participants_one_per_respondent_witness :
  RoomService.getPollAnalysis "AB12CD" [Scenario.room] Scenario.users
    = Ok Cases.report /\
  exists room,
    Room.findOne "AB12CD" [Scenario.room] = Some room /\
    List.length (Analysis.participants Cases.report)
      = List.length (respondents room).
Proof.
  split; [reflexivity|].
  destruct (participants_one_per_respondent "AB12CD" [Scenario.room]
              Scenario.users Cases.report eq_refl)
    as [room [Hf [_ [_ [_ [_ [_ [Hl _]]]]]]]].
  exists room. split; assumption.
Defined.

(** C4.  The participants of a report are in descending order of score. *)
Theorem participants_sorted_by_score code rooms userModel rep :
  RoomService.getPollAnalysis code rooms userModel = Ok rep ->
  StronglySorted (fun a b => Participant.score b <= Participant.score a)
    (Analysis.participants rep).
Proof.
  intros H. destruct (getPollAnalysis_Ok _ _ _ _ H) as [room [_ [Hp _]]].
  rewrite Hp. apply sort_byScore_sorted.
Qed.

Lemma participants_sorted_by_score_witness :
  RoomService.getPollAnalysis "AB12CD" [Scenario.room] Scenario.users
    = Ok Cases.report /\
  StronglySorted (fun a b => Participant.score b <= Participant.score a)
    (Analysis.participants Cases.report).
Proof.
  split; [reflexivity|].
  apply (participants_sorted_by_score "AB12CD" [Scenario.room] Scenario.users).
  reflexivity.
Defined.




(** C7.  The analysis throws [Room not found] exactly when no stored room
    has the code, it returns a report exactly when one has, and it throws
    nothing else. *)
Theorem getPollAnalysis_not_found code rooms userModel :
  (RoomService.getPollAnalysis code rooms userModel
     = Throw (Error "Room not found") <->
   forall r, In r rooms -> Room.roomCode r <> code) /\
  ((exists rep, RoomService.getPollAnalysis code rooms userModel = Ok rep) <->
   exists r, In r rooms /\ Room.roomCode r = code) /\
  (forall e, RoomService.getPollAnalysis code rooms userModel = Throw e ->
             e = Error "Room not found").
Proof.
  rewrite <- findOne_None. unfold RoomService.getPollAnalysis.
  destruct (Room.findOne code rooms) as [room|] eqn:Hfind.
  - split; [split; discriminate|]. split; [|discriminate].
    split.
    + intros _. exists room. now apply findOne_Some.
    + intros _. eexists. reflexivity.
  - split; [tauto|]. split.
    + split; [intros [rep Hrep]; discriminate|].
      intros [r [Hin Hcode]]. exfalso.
      exact (proj1 (findOne_None code rooms) Hfind r Hin Hcode).
    + intros e He. now injection He as <-.
Qed.

Lemma lowerChar_active c :
  Ascii.eqb (JS.lowerChar c) "a" = sameLetterIgnoringCase c "a" /\
  Ascii.eqb (JS.lowerChar c) "c" = sameLetterIgnoringCase c "c" /\
  Ascii.eqb (JS.lowerChar c) "t" = sameLetterIgnoringCase c "t" /\
  Ascii.eqb (JS.lowerChar c) "i" = sameLetterIgnoringCase c "i" /\
  Ascii.eqb (JS.lowerChar c) "v" = sameLetterIgnoringCase c "v" /\
  Ascii.eqb (JS.lowerChar c) "e" = sameLetterIgnoringCase c "e".
Proof.
  destruct c as [[] [] [] [] [] [] [] []]; vm_compute; repeat split.
Qed.

(** The comparison of the code, [status.toLowerCase() === 'active'], is the
    comparison without regard to case of the spec. *)
Lemma toLowerCase_active s :
  String.eqb (JS.toLowerCase s) "active" = equalsIgnoringCase s "active".
Proof.
  destruct s as [|c1 [|c2 [|c3 [|c4 [|c5 [|c6 [|c7 s]]]]]]];
    cbn [JS.toLowerCase String.eqb equalsIgnoringCase]; try reflexivity;
    try (destruct (lowerChar_active c1) as [-> _];
         destruct (sameLetterIgnoringCase c1 "a"); reflexivity).
  - destruct (lowerChar_active c1) as [-> _].
    destruct (lowerChar_active c2) as [_ [-> _]].
    destruct (sameLetterIgnoringCase c1 "a"), (sameLetterIgnoringCase c2 "c");
      reflexivity.
  - destruct (lowerChar_active c1) as [-> _].
    destruct (lowerChar_active c2) as [_ [-> _]].
    destruct (lowerChar_active c3) as [_ [_ [-> _]]].
    destruct (sameLetterIgnoringCase c1 "a"), (sameLetterIgnoringCase c2 "c"),
      (sameLetterIgnoringCase c3 "t"); reflexivity.
  - destruct (lowerChar_active c1) as [-> _].
    destruct (lowerChar_active c2) as [_ [-> _]].
    destruct (lowerChar_active c3) as [_ [_ [-> _]]].
    destruct (lowerChar_active c4) as [_ [_ [_ [-> _]]]].
    destruct (sameLetterIgnoringCase c1 "a"), (sameLetterIgnoringCase c2 "c"),
      (sameLetterIgnoringCase c3 "t"), (sameLetterIgnoringCase c4 "i");
      reflexivity.
  - destruct (lowerChar_active c1) as [-> _].
    destruct (lowerChar_active c2) as [_ [-> _]].
    destruct (lowerChar_active c3) as [_ [_ [-> _]]].
    destruct (lowerChar_active c4) as [_ [_ [_ [-> _]]]].
    destruct (lowerChar_active c5) as [_ [_ [_ [_ [-> _]]]]].
    destruct (sameLetterIgnoringCase c1 "a"), (sameLetterIgnoringCase c2 "c"),
      (sameLetterIgnoringCase c3 "t"), (sameLetterIgnoringCase c4 "i"),
      (sameLetterIgnoringCase c5 "v"); reflexivity.
  - destruct (lowerChar_active c1) as [-> _].
    destruct (lowerChar_active c2) as [_ [-> _]].
    destruct (lowerChar_active c3) as [_ [_ [-> _]]].
    destruct (lowerChar_active c4) as [_ [_ [_ [-> _]]]].
    destruct (lowerChar_active c5) as [_ [_ [_ [_ [-> _]]]]].
    destruct (lowerChar_active c6) as [_ [_ [_ [_ [_ ->]]]]].
    reflexivity.
  - destruct (lowerChar_active c1) as [-> _].
    destruct (lowerChar_active c2) as [_ [-> _]].
    destruct (lowerChar_active c3) as [_ [_ [-> _]]].
    destruct (lowerChar_active c4) as [_ [_ [_ [-> _]]]].
    destruct (lowerChar_active c5) as [_ [_ [_ [_ [-> _]]]]].
    destruct (lowerChar_active c6) as [_ [_ [_ [_ [_ ->]]]]].
    destruct (sameLetterIgnoringCase c1 "a"), (sameLetterIgnoringCase c2 "c"),
      (sameLetterIgnoringCase c3 "t"), (sameLetterIgnoringCase c4 "i"),
      (sameLetterIgnoringCase c5 "v"), (sameLetterIgnoringCase c6 "e");
      reflexivity.
Qed.

(** C6.  [isRoomValid(code)] is true exactly when the code resolves to a
    stored room whose status equals [active] without regard to case, in the
    sense of the spec: the same length and, place by place, the same
    character or the same letter in either case.  It is false for a code no
    room has.  With distinct room codes, the index of the schema, the room
    the code resolves to is the room that has exactly that code. *)
Theorem isRoomValid_iff code rooms :
  (RoomService.isRoomValid code rooms = true <->
   exists room, Room.findOne code rooms = Some room /\
                equalsIgnoringCase (Room.status room) "active" = true) /\
  ((forall r, In r rooms -> Room.roomCode r <> code) ->
   RoomService.isRoomValid code rooms = false) /\
  (NoDup (map Room.roomCode rooms) ->
   (RoomService.isRoomValid code rooms = true <->
    exists room, In room rooms /\ Room.roomCode room = code /\
                 equalsIgnoringCase (Room.status room) "active" = true)).
Proof.
  assert (H1 : RoomService.isRoomValid code rooms = true <->
               exists room, Room.findOne code rooms = Some room /\
                 equalsIgnoringCase (Room.status room) "active" = true).
  { unfold RoomService.isRoomValid.
    destruct (Room.findOne code rooms) as [room|].
    - rewrite toLowerCase_active. split.
      + intros H. now exists room.
      + intros [r [Hr Hs]]. now injection Hr as ->.
    - split; [discriminate | intros [r [Hr _]]; discriminate]. }
  split; [exact H1|]. split.
  - intros Hnone. apply findOne_None in Hnone.
    unfold RoomService.isRoomValid. now rewrite Hnone.
  - intros Hnd. rewrite H1. split.
    + intros [room [Hf Hs]]. exists room.
      destruct (findOne_Some _ _ _ Hf). auto.
    + intros [room [Hin [Hc Hs]]]. exists room. split; [|exact Hs].
      now apply findOne_unique.
Qed.

Lemma isRoomValid_iff_witness :
  RoomService.isRoomValid "CA44CA" [Cases.ended; Cases.capital; Scenario.room]
    = true /\
  RoomService.isRoomValid "NOSUCH" [Cases.ended; Cases.capital; Scenario.room]
    = false /\
  (NoDup (map Room.roomCode [Cases.ended; Cases.capital; Scenario.room]) /\
   ~ exists room, In room [Cases.ended; Cases.capital; Scenario.room] /\
       Room.roomCode room = "EN0000" /\
       equalsIgnoringCase (Room.status room) "active" = true).
Proof.
  assert (Hnd : NoDup (map Room.roomCode
                         [Cases.ended; Cases.capital; Scenario.room])).
  { repeat constructor; simpl; intuition discriminate. }
  split; [|split; [|split; [exact Hnd|]]].
  - apply (proj2 (proj2 (proj2 (isRoomValid_iff "CA44CA"
               [Cases.ended; Cases.capital; Scenario.room])) Hnd)).
    exists Cases.capital. split; [right; now left|]. split; reflexivity.
  - apply (proj1 (proj2 (isRoomValid_iff "NOSUCH"
               [Cases.ended; Cases.capital; Scenario.room]))).
    intros r [<-|[<-|[<-|[]]]]; discriminate.
  - intros H.
    apply (proj2 (proj2 (isRoomValid_iff "EN0000"
             [Cases.ended; Cases.capital; Scenario.room])) Hnd) in H.
    discriminate H.
Defined.

(** The comparison of [isRoomValid] ignores the case of the status, the one
    of [canJoinRoom] does not. *)
Example isRoomValid_ignores_case :
  let shout := Room.setStatus "ACTIVE" Scenario.room in
  RoomService.isRoomValid "AB12CD" [shout] = true /\
  RoomService.canJoinRoom "AB12CD" [shout] = false.
Proof. split; reflexivity. Qed.

(** The life of a room: created, valid, ended, no longer valid. *)
Example lifecycle :
  let (rooms1, made) :=
    RoomService.createRoom "0.4fzzzxjylrx" "o1" 5 "Algebra" "teacher-1" [] in
  let (rooms2, found) := RoomService.endRoom "4FZZZX" rooms1 in
  (exists room, made = Ok room /\ Room.roomCode room = "4FZZZX") /\
  RoomService.isRoomValid "4FZZZX" rooms1 = true /\
  found = true /\
  RoomService.isRoomValid "4FZZZX" rooms2 = false /\
  RoomService.isRoomEnded "4FZZZX" rooms2 = true.
Proof. cbv. repeat split. eexists. split; reflexivity. Qed.

(** Equal scores keep the order in which the students first answered. *)
Example sort_keeps_ties :
  JS.sort RoomService.byScore
    [Participant.mk "a" 3 1 1 "N/A"; Participant.mk "b" 5 1 0 "N/A";
     Participant.mk "c" 3 1 1 "N/A"; Participant.mk "d" 5 1 0 "N/A"]
  = [Participant.mk "b" 5 1 0 "N/A"; Participant.mk "d" 5 1 0 "N/A";
     Participant.mk "a" 3 1 1 "N/A"; Participant.mk "c" 3 1 1 "N/A"].
Proof. reflexivity. Qed.

(** C8.  For a code that a room has, [endRoom] returns true, a second call
    returns true again, and after either call the room the code resolves to
    has status [ended], whatever its status was; the second call changes
    nothing.  For a code that no room has, [endRoom] returns false and leaves
    the collection as it is. *)
Theorem endRoom_idempotent code rooms :
  ((exists r, In r rooms /\ Room.roomCode r = code) ->
   let once := RoomService.endRoom code rooms in
   let twice := RoomService.endRoom code (fst once) in
   snd once = true /\ snd twice = true /\
   (exists r1, Room.findOne code (fst once) = Some r1 /\ Room.status r1 = "ended") /\
   (exists r2, Room.findOne code (fst twice) = Some r2 /\ Room.status r2 = "ended") /\
   fst twice = fst once) /\
  ((forall r, In r rooms -> Room.roomCode r <> code) ->
   RoomService.endRoom code rooms = (rooms, false)).
Proof.
  split.
  - intros [r [Hin Hcode]].
    destruct (Room.findOne code rooms) as [room|] eqn:Hfind.
    2:{ exfalso. exact (proj1 (findOne_None code rooms) Hfind r Hin Hcode). }
    assert (Hkeep : forall x, Room.roomCode (Room.setStatus "ended" x)
                              = Room.roomCode x) by reflexivity.
    destruct (findOneAndUpdate_found code _ rooms room Hkeep Hfind)
      as [rooms1 [Hupd1 [Hfind1 _]]].
    destruct (findOneAndUpdate_found code _ rooms1 _ Hkeep Hfind1)
      as [rooms2 [Hupd2 [Hfind2 _]]].
    assert (Hsame : rooms2 = rooms1).
    { clear - Hupd2 Hfind1. revert rooms2 Hupd2 Hfind1.
      induction rooms1 as [|x rest IH]; simpl; intros rooms2 Hupd Hf; [discriminate|].
      destruct (String.eqb (Room.roomCode x) code).
      - injection Hf as ->. now injection Hupd as <-.
      - destruct (Room.findOneAndUpdate code (Room.setStatus "ended") rest)
          as [rest' found] eqn:E.
        injection Hupd as <- ->. f_equal. now apply IH. }
    unfold RoomService.endRoom. rewrite Hupd1. cbn [fst snd].
    rewrite Hupd2. cbn [fst snd]. subst rooms2.
    repeat split; eexists; split; (eassumption || reflexivity).
  - intros Hnone. apply findOne_None in Hnone.
    unfold RoomService.endRoom.
    now rewrite (findOneAndUpdate_missing _ _ _ Hnone).
Qed.

Lemma endRoom_idempotent_witness :
  snd (RoomService.endRoom "EN0000" [Cases.ended; Scenario.room]) = true /\
  snd (RoomService.endRoom "AB12CD"
         (fst (RoomService.endRoom "AB12CD" [Cases.ended; Scenario.room]))) = true /\
  RoomService.endRoom "NOSUCH" [Cases.ended; Scenario.room]
    = ([Cases.ended; Scenario.room], false).
Proof.
  split; [|split].
  - apply (proj1 (endRoom_idempotent "EN0000" [Cases.ended; Scenario.room])).
    exists Cases.ended. split; [now left | reflexivity].
  - apply (proj1 (endRoom_idempotent "AB12CD" [Cases.ended; Scenario.room])).
    exists Scenario.room. split; [right; now left | reflexivity].
  - apply (proj2 (endRoom_idempotent "NOSUCH" [Cases.ended; Scenario.room])).
    intros r [<-|[<-|[]]]; discriminate.
Defined.

(** C10.  When every stored room has status [active] or [ended], the two
    states of the schema, [isRoomValid] and [canJoinRoom] agree on every
    code. *)
Theorem isRoomValid_canJoinRoom code rooms :
  statusInEnum rooms ->
  RoomService.isRoomValid code rooms = RoomService.canJoinRoom code rooms.
Proof.
  intros Henum. unfold RoomService.isRoomValid, RoomService.canJoinRoom.
  destruct (Room.findOne code rooms) as [room|] eqn:Hfind; [|reflexivity].
  destruct (findOne_Some _ _ _ Hfind) as [Hin _].
  destruct (Henum room Hin) as [-> | ->]; reflexivity.
Qed.

Lemma isRoomValid_canJoinRoom_witness :
  statusInEnum [Cases.ended; Scenario.room] /\
  RoomService.isRoomValid "AB12CD" [Cases.ended; Scenario.room]
    = RoomService.canJoinRoom "AB12CD" [Cases.ended; Scenario.room].
Proof.
  assert (H : statusInEnum [Cases.ended; Scenario.room]).
  { intros r [<-|[<-|[]]]; [now right | now left]. }
  split; [exact H|].
  apply (isRoomValid_canJoinRoom "AB12CD" [Cases.ended; Scenario.room] H).
Defined.

(** X28.  [endRoom] deletes nothing and writes one field: it keeps the
    rooms in their number and order; every room keeps its [_id], [roomCode],
    [name], [teacherId], [createdAt], [endedAt] and [polls] with the polls'
    answers; a status changes only at a room the code matches, to [ended].
    The room the code resolves to is ended, its polls and [endedAt] as they
    were. *)
Theorem endRoom_only_sets_status code rooms :
  Forall2 (fun r r' =>
             Room._id r' = Room._id r /\
             Room.roomCode r' = Room.roomCode r /\
             Room.name r' = Room.name r /\
             Room.teacherId r' = Room.teacherId r /\
             Room.createdAt r' = Room.createdAt r /\
             Room.endedAt r' = Room.endedAt r /\
             Room.polls r' = Room.polls r /\
             (Room.status r' = Room.status r \/
              (Room.roomCode r = code /\ Room.status r' = "ended")))
          rooms (fst (RoomService.endRoom code rooms)) /\
  (forall room, Room.findOne code rooms = Some room ->
     exists room',
       Room.findOne code (fst (RoomService.endRoom code rooms)) = Some room' /\
       Room.status room' = "ended" /\
       Room.endedAt room' = Room.endedAt room /\
       Room.polls room' = Room.polls room).
Proof.
  split.
  - eapply Forall2_impl; [|apply endRoom_frame].
    intros r r' [->|[Hc ->]]; cbn; repeat split; auto.
  - intros room Hfind.
    assert (Hkeep : forall x, Room.roomCode (Room.setStatus "ended" x)
                              = Room.roomCode x) by reflexivity.
    destruct (findOneAndUpdate_found code _ rooms room Hkeep Hfind)
      as [rooms1 [Hupd [Hfind1 _]]].
    unfold RoomService.endRoom. rewrite Hupd. cbn [fst].
    exists (Room.setStatus "ended" room). repeat split. exact Hfind1.
Qed.

Lemma endRoom_only_sets_status_witness :
  exists room',
    Room.findOne "AB12CD"
      (fst (RoomService.endRoom "AB12CD" [Cases.ended; Scenario.room])) = Some room' /\
    Room.status room' = "ended" /\
    Room.endedAt room' = Room.endedAt Scenario.room /\
    Room.polls room' = Room.polls Scenario.room.
Proof.
  apply (proj2 (endRoom_only_sets_status "AB12CD" [Cases.ended; Scenario.room])
           Scenario.room eq_refl).
Defined.

(** C2.  The code at a room as [createRoom] stores it: [endRoom] returns
    true and sets the status to [ended], and the [endedAt] that the claim
    has stamped on termination is still absent, so that the report of the
    ended room, which takes its duration from [endedAt], shows [N/A]. *)
Theorem endRoom_leaves_endedAt_absent :
  RoomService.endRoom "AB12CD" [Scenario.room]
    = ([Room.setStatus "ended" Scenario.room], true) /\
  Room.status (Room.setStatus "ended" Scenario.room) = "ended" /\
  Room.endedAt (Room.setStatus "ended" Scenario.room) = None /\
  (forall t, Room.endedAt (Room.setStatus "ended" Scenario.room) <> Some t) /\
  RoomService.duration (Room.setStatus "ended" Scenario.room) = "N/A" /\
  (let created :=
     fst (RoomService.createRoom "0.4fzzzxjylrx" "o1" 5 "Algebra" "teacher-1" []) in
   let ended := RoomService.endRoom "4FZZZX" created in
   snd ended = true /\
   RoomService.isRoomEnded "4FZZZX" (fst ended) = true /\
   option_map Room.endedAt (RoomService.getRoomByCode "4FZZZX" (fst ended))
     = Some None /\
   RoomService.getPollAnalysis "4FZZZX" (fst ended) []
     = Ok (Analysis.mk "o1" "Algebra" (Some 5) "N/A" [] [])).
Proof. repeat split. intros t. discriminate. Qed.

(** C9, as the code has it.  For every rendering of the random draw, the
    room that [createRoom] returns is the one it appended to the collection;
    its [roomCode] is the upper-case form of the first six base-36 digits
    after the point, or of all of them when the draw has fewer: one to six
    characters of [0-9A-Z], not padded; its status is [active], it has no
    polls, no [endedAt], and [createdAt] is the time of the call. *)
Theorem createRoom_room random36 oid now name teacherId rooms rooms' room :
  isRandom36 random36 = true ->
  RoomService.createRoom random36 oid now name teacherId rooms = (rooms', Ok room) ->
  Room.roomCode room = JS.toUpperCase (JS.substring 2 8 random36) /\
  allChars isUpperAlnum (Room.roomCode room) = true /\
  (1 <= String.length (Room.roomCode room) <= 6)%nat /\
  String.length (Room.roomCode room) = Nat.min 6 (String.length random36 - 2) /\
  Room.status room = "active" /\
  Room.polls room = [] /\
  Room.createdAt room = Some now /\
  Room.endedAt room = None /\
  Room.name room = name /\
  Room.teacherId room = teacherId /\
  rooms' = (rooms ++ [room])%list.
Proof.
  intros Hwf Hcreate. unfold RoomService.createRoom in Hcreate.
  apply save_Ok in Hcreate. destruct Hcreate as [-> [-> [Hreq _]]].
  cbn [Room.roomCode Room.status Room.polls Room.createdAt Room.endedAt
       Room.name Room.teacherId] in *.
  apply checkRequired_length in Hreq.
  assert (Hcode : exists ds, allChars isDigit36 ds = true /\
            JS.substring 2 8 random36 = String.substring 0 6 ds /\
            (String.length random36 - 2 = String.length ds)%nat).
  { destruct random36 as [|c0 [|c1 ds]]; try discriminate.
    - exists EmptyString. repeat split.
    - exists ds. split; [|split; [reflexivity | simpl; lia]].
      unfold isRandom36 in Hwf.
      destruct (Ascii.eqb_spec c0 "0"); [subst c0|].
      2:{ destruct c0 as [[] [] [] [] [] [] [] []]; try discriminate; congruence. }
      destruct (Ascii.eqb_spec c1 "."); [subst c1|].
      2:{ destruct c1 as [[] [] [] [] [] [] [] []]; try discriminate; congruence. }
      apply andb_true_iff in Hwf. tauto. }
  destruct Hcode as [ds [Hds [Hsub Hlen]]].
  rewrite Hsub in *. rewrite length_toUpperCase, length_prefix in *.
  rewrite Hlen.
  repeat split; try lia.
  now apply allChars_toUpperCase_prefix.
Qed.

Lemma createRoom_room_witness :
  isRandom36 "0.4fzzzxjylrx" = true /\
  RoomService.createRoom "0.4fzzzxjylrx" "o1" 5 "Algebra" "teacher-1" []
    = ([Room.mk "o1" "4FZZZX" "Algebra" "teacher-1" (Some 5) None "active" []],
       Ok (Room.mk "o1" "4FZZZX" "Algebra" "teacher-1" (Some 5) None "active" [])) /\
  Room.status (Room.mk "o1" "4FZZZX" "Algebra" "teacher-1" (Some 5) None "active" [])
    = "active".
Proof.
  split; [reflexivity|]. split; [reflexivity|].
  apply (createRoom_room "0.4fzzzxjylrx" "o1" 5 "Algebra" "teacher-1" []
           _ _ eq_refl eq_refl).
Defined.

(** C9 as stated fails: the draw 0.5 is written [0.i] in base 36 and gives
    the room code [I], one character long, while a draw with six digits or
    more gives six characters; the code has no fixed length. *)
Lemma createRoom_code_not_fixed_length :
  isRandom36 "0.i" = true /\
  (exists rooms' room,
     RoomService.createRoom "0.i" "o1" 5 "Algebra" "teacher-1" []
       = (rooms', Ok room) /\
     Room.roomCode room = "I" /\
     String.length (Room.roomCode room) = 1%nat) /\
  (exists rooms' room,
     RoomService.createRoom "0.4fzzzxjylrx" "o1" 5 "Algebra" "teacher-1" []
       = (rooms', Ok room) /\
     String.length (Room.roomCode room) = 6%nat) /\
  ~ (exists n, forall random36 rooms' room,
       isRandom36 random36 = true ->
       RoomService.createRoom random36 "o1" 5 "Algebra" "teacher-1" []
         = (rooms', Ok room) ->
       String.length (Room.roomCode room) = n).
Proof.
  split; [reflexivity|]. split; [|split].
  - do 2 eexists. split; [reflexivity|]. split; reflexivity.
  - do 2 eexists. split; reflexivity.
  - intros [n Hn].
    pose proof (Hn "0.i" _ _ eq_refl eq_refl) as H1.
    pose proof (Hn "0.4fzzzxjylrx" _ _ eq_refl eq_refl) as H6.
    simpl in H1, H6. congruence.
Qed.

(** * Further properties of the service *)

Local Open Scope list_scope.

(** ** Creating, finding and ending rooms *)

Lemma findOne_app code rooms more :
  Room.findOne code (rooms ++ more) =
  match Room.findOne code rooms with
  | Some r => Some r
  | None => Room.findOne code more
  end.
Proof.
  induction rooms as [|r rest IH]; simpl; [reflexivity|].
  now destruct (String.eqb (Room.roomCode r) code).
Qed.

Lemma createRoom_unfold random36 oid now name teacherId rooms :
  RoomService.createRoom random36 oid now name teacherId rooms =
  Room.save (newRoom random36 oid now name teacherId) rooms.
Proof. reflexivity. Qed.

Lemma checkRequired_false s : Room.checkRequired s = false <-> s = EmptyString.
Proof.
  unfold Room.checkRequired. destruct (String.eqb_spec s EmptyString); simpl;
    split; congruence.
Qed.

Lemma createRoom_findOne random36 oid now name teacherId rooms rooms' room :
  RoomService.createRoom random36 oid now name teacherId rooms = (rooms', Ok room) ->
  room = newRoom random36 oid now name teacherId /\
  Room.findOne (Room.roomCode room) rooms' = Some room /\
  Room.findOne (Room.roomCode room) rooms = None /\
  (forall code, code <> Room.roomCode room ->
     Room.findOne code rooms' = Room.findOne code rooms).
Proof.
  intros H. rewrite createRoom_unfold in H. apply save_Ok in H.
  destruct H as [-> [-> [_ Hnone]]].
  set (doc := newRoom random36 oid now name teacherId) in *.
  split; [reflexivity|]. split; [|split; [exact Hnone|]].
  - rewrite findOne_app, Hnone. simpl. now rewrite String.eqb_refl.
  - intros code Hne. rewrite findOne_app.
    destruct (Room.findOne code rooms); [reflexivity|]. cbn [Room.findOne].
    destruct (String.eqb_spec (Room.roomCode doc) code) as [E|E];
      [congruence | reflexivity].
Qed.

(** X2.  After [createRoom] has returned a room, [getRoomByCode] of its code
    gives that room, the room is valid, can be joined and is not ended, and
    the lookup of every other code gives what it gave before. *)
Theorem createRoom_then_lookup random36 oid now name teacherId rooms rooms' room :
  RoomService.createRoom random36 oid now name teacherId rooms = (rooms', Ok room) ->
  RoomService.getRoomByCode (Room.roomCode room) rooms' = Some room /\
  RoomService.getRoomByCode (Room.roomCode room) rooms = None /\
  RoomService.isRoomValid (Room.roomCode room) rooms' = true /\
  RoomService.canJoinRoom (Room.roomCode room) rooms' = true /\
  RoomService.isRoomEnded (Room.roomCode room) rooms' = false /\
  (forall code, code <> Room.roomCode room ->
     RoomService.getRoomByCode code rooms' = RoomService.getRoomByCode code rooms).
Proof.
  intros H. destruct (createRoom_findOne _ _ _ _ _ _ _ _ H)
    as [Hroom [Hget [Hnone Hother]]].
  unfold RoomService.getRoomByCode, RoomService.isRoomValid,
    RoomService.canJoinRoom, RoomService.isRoomEnded.
  rewrite Hget, Hnone.
  split; [reflexivity|]. split; [reflexivity|].
  rewrite Hroom. repeat split. rewrite <- Hroom. exact Hother.
Qed.

Lemma createRoom_then_lookup_witness :
  RoomService.getRoomByCode "4FZZZX"
    [Scenario.room; newRoom "0.4fzzzxjylrx" "o9" 7 "Algebra" "teacher-1"]
  = Some (newRoom "0.4fzzzxjylrx" "o9" 7 "Algebra" "teacher-1").
Proof.
  apply (createRoom_then_lookup "0.4fzzzxjylrx" "o9" 7 "Algebra" "teacher-1"
           [Scenario.room] _ _ eq_refl).
Defined.

Lemma endRoom_codes code rooms :
  map Room.roomCode (fst (RoomService.endRoom code rooms)) = map Room.roomCode rooms.
Proof.
  induction (endRoom_frame code rooms) as [|r r' l l' Hr _ IH]; [reflexivity|].
  simpl. rewrite IH. f_equal. now destruct Hr as [->|[_ ->]].
Qed.

(** X3.  [createRoom] and [endRoom] keep the stored room codes distinct and
    every stored status one of [active] and [ended]. *)
Theorem codes_and_statuses_kept rooms :
  uniqueCodes rooms -> statusInEnum rooms ->
  (forall random36 oid now name teacherId,
     let rooms' := fst (RoomService.createRoom random36 oid now name teacherId rooms) in
     uniqueCodes rooms' /\ statusInEnum rooms') /\
  (forall code,
     let rooms' := fst (RoomService.endRoom code rooms) in
     uniqueCodes rooms' /\ statusInEnum rooms').
Proof.
  intros Hu He. split.
  - intros random36 oid now name teacherId rooms'.
    split; [|now apply statusInEnum_createRoom].
    unfold rooms'.
    destruct (RoomService.createRoom random36 oid now name teacherId rooms)
      as [rs [room|e]] eqn:Hc.
    + rewrite createRoom_unfold in Hc. apply save_Ok in Hc.
      destruct Hc as [-> [-> [_ Hnone]]]. cbn [fst].
      unfold uniqueCodes. rewrite map_app. simpl.
      apply (Permutation_NoDup (Permutation_cons_append _ _)).
      constructor; [|exact Hu].
      intros Hin. apply in_map_iff in Hin. destruct Hin as [r [Hr Hin]].
      exact (proj1 (findOne_None _ _) Hnone r Hin Hr).
    + rewrite createRoom_unfold in Hc. unfold Room.save in Hc. cbn [fst].
      repeat match type of Hc with
             | (if ?b then _ else _) = _ =>
                 destruct b; [injection Hc as <- _; exact Hu|]
             end.
      discriminate.
  - intros code rooms'. split; [|now apply statusInEnum_endRoom].
    unfold rooms', uniqueCodes. now rewrite endRoom_codes.
Qed.

Lemma codes_and_statuses_kept_witness :
  uniqueCodes (fst (RoomService.endRoom "AB12CD" [Cases.ended; Scenario.room])) /\
  statusInEnum (fst (RoomService.endRoom "AB12CD" [Cases.ended; Scenario.room])).
Proof.
  assert (Hu : uniqueCodes [Cases.ended; Scenario.room]).
  { repeat constructor; simpl; intuition discriminate. }
  assert (He : statusInEnum [Cases.ended; Scenario.room]).
  { intros r [<-|[<-|[]]]; [now right | now left]. }
  apply (proj2 (codes_and_statuses_kept [Cases.ended; Scenario.room] Hu He) "AB12CD").
Defined.

Lemma endRoom_findOne_other code code' rooms :
  code' <> code ->
  Room.findOne code' (fst (RoomService.endRoom code rooms)) = Room.findOne code' rooms.
Proof.
  intros Hne.
  induction (endRoom_frame code rooms) as [|r r' l l' Hr _ IH]; [reflexivity|].
  simpl. rewrite IH. destruct Hr as [->|[Hc ->]]; [reflexivity|].
  cbn [Room.setStatus Room.roomCode].
  destruct (String.eqb_spec (Room.roomCode r) code'); [congruence | reflexivity].
Qed.

Lemma endRoom_findOne_same code rooms :
  Room.findOne code (fst (RoomService.endRoom code rooms)) =
  option_map (Room.setStatus "ended") (Room.findOne code rooms).
Proof.
  destruct (Room.findOne code rooms) as [room|] eqn:Hfind; simpl.
  - destruct (findOneAndUpdate_found code (Room.setStatus "ended") rooms room
                (fun _ => eq_refl) Hfind) as [rooms1 [Hupd [Hfind1 _]]].
    unfold RoomService.endRoom. now rewrite Hupd.
  - unfold RoomService.endRoom.
    now rewrite (findOneAndUpdate_missing _ _ _ Hfind).
Qed.

(** X4.  After [endRoom(code)] the code is neither valid nor open to join,
    whatever the collection was, and [isRoomEnded(code)] is the value
    [endRoom] returned. *)
Theorem endRoom_then_checks code rooms :
  let rooms' := fst (RoomService.endRoom code rooms) in
  RoomService.isRoomValid code rooms' = false /\
  RoomService.canJoinRoom code rooms' = false /\
  RoomService.isRoomEnded code rooms' = snd (RoomService.endRoom code rooms).
Proof.
  intros rooms'. unfold rooms', RoomService.isRoomValid, RoomService.canJoinRoom,
    RoomService.isRoomEnded.
  rewrite endRoom_findOne_same.
  destruct (Room.findOne code rooms) as [room|] eqn:Hfind; simpl.
  - destruct (findOneAndUpdate_found code (Room.setStatus "ended") rooms room
                (fun _ => eq_refl) Hfind) as [rooms1 [Hupd _]].
    unfold RoomService.endRoom. rewrite Hupd. auto.
  - unfold RoomService.endRoom.
    rewrite (findOneAndUpdate_missing _ _ _ Hfind). auto.
Qed.

(** X5.  [endRoom(code)] leaves every other code as it was: the room found
    for it and the answers of [isRoomValid], [isRoomEnded] and [canJoinRoom]
    are the same before and after. *)
Theorem endRoom_other_codes code code' rooms :
  code' <> code ->
  let rooms' := fst (RoomService.endRoom code rooms) in
  RoomService.getRoomByCode code' rooms' = RoomService.getRoomByCode code' rooms /\
  RoomService.isRoomValid code' rooms' = RoomService.isRoomValid code' rooms /\
  RoomService.isRoomEnded code' rooms' = RoomService.isRoomEnded code' rooms /\
  RoomService.canJoinRoom code' rooms' = RoomService.canJoinRoom code' rooms.
Proof.
  intros Hne rooms'.
  unfold rooms', RoomService.getRoomByCode, RoomService.isRoomValid,
    RoomService.isRoomEnded, RoomService.canJoinRoom.
  now rewrite (endRoom_findOne_other code code' rooms Hne).
Qed.

Lemma endRoom_other_codes_witness :
  RoomService.isRoomValid "AB12CD"
    (fst (RoomService.endRoom "EN0000" [Cases.ended; Scenario.room]))
  = RoomService.isRoomValid "AB12CD" [Cases.ended; Scenario.room].
Proof.
  apply (endRoom_other_codes "EN0000" "AB12CD" [Cases.ended; Scenario.room]).
  discriminate.
Defined.

(** X6.  The report of a room does not change when a room is ended: for
    every code, [getPollAnalysis] gives the same result before and after
    [endRoom], the duration included. *)
Theorem endRoom_keeps_analysis code c rooms userModel :
  RoomService.getPollAnalysis c (fst (RoomService.endRoom code rooms)) userModel
  = RoomService.getPollAnalysis c rooms userModel.
Proof.
  unfold RoomService.getPollAnalysis.
  destruct (String.eqb_spec c code) as [->|Hne].
  - rewrite endRoom_findOne_same.
    destruct (Room.findOne code rooms) as [room|]; reflexivity.
  - now rewrite (endRoom_findOne_other code c rooms Hne).
Qed.

Lemma lower_active_not_ended s :
  JS.toLowerCase s = "active" -> s <> "ended".
Proof. intros H ->. discriminate H. Qed.

(** X7.  No code is valid and ended at once; a code that can be joined is
    valid; a code no room has is neither valid, ended nor open to join; and
    when the stored statuses are [active] and [ended] only, a code that a
    room has is valid exactly when it is not ended. *)
Theorem valid_or_ended code rooms :
  (RoomService.isRoomValid code rooms = true ->
   RoomService.isRoomEnded code rooms = false) /\
  (RoomService.canJoinRoom code rooms = true ->
   RoomService.isRoomValid code rooms = true) /\
  (RoomService.getRoomByCode code rooms = None ->
   RoomService.isRoomValid code rooms = false /\
   RoomService.isRoomEnded code rooms = false /\
   RoomService.canJoinRoom code rooms = false) /\
  (statusInEnum rooms ->
   RoomService.getRoomByCode code rooms <> None ->
   RoomService.isRoomValid code rooms = negb (RoomService.isRoomEnded code rooms)).
Proof.
  unfold RoomService.isRoomValid, RoomService.isRoomEnded,
    RoomService.canJoinRoom, RoomService.getRoomByCode.
  destruct (Room.findOne code rooms) as [room|] eqn:Hfind.
  - split; [|split; [|split]].
    + intros H. apply String.eqb_eq, lower_active_not_ended in H.
      now apply String.eqb_neq.
    + intros H. apply String.eqb_eq in H. now rewrite H.
    + discriminate.
    + intros He _. destruct (findOne_Some _ _ _ Hfind) as [Hin _].
      destruct (He room Hin) as [-> | ->]; reflexivity.
  - repeat split; congruence.
Qed.

Lemma valid_or_ended_witness :
  RoomService.isRoomValid "EN0000" [Cases.ended; Scenario.room]
  = negb (RoomService.isRoomEnded "EN0000" [Cases.ended; Scenario.room]) /\
  RoomService.isRoomEnded "AB12CD" [Cases.ended; Scenario.room] = false.
Proof.
  split.
  - apply (proj2 (proj2 (proj2 (valid_or_ended "EN0000" [Cases.ended; Scenario.room])))).
    + intros r [<-|[<-|[]]]; [now right | now left].
    + discriminate.
  - apply (proj1 (valid_or_ended "AB12CD" [Cases.ended; Scenario.room])).
    reflexivity.
Defined.

(** ** The listings *)

Lemma filter_split {A : Type} (p q : A -> bool) (l : list A) :
  (forall x, In x l -> q x = negb (p x)) ->
  Permutation (filter p l ++ filter q l) l.
Proof.
  induction l as [|x l IH]; intros H; simpl; [reflexivity|].
  rewrite (H x (or_introl eq_refl)).
  assert (IH' : Permutation (filter p l ++ filter q l) l)
    by (apply IH; intros y Hy; apply H; now right).
  destruct (p x); simpl.
  - now constructor.
  - rewrite <- Permutation_middle. now constructor.
Qed.

(** X8.  When the stored statuses are [active] and [ended] only, the active
    and the ended rooms together are all rooms, each once; no room is in both
    listings, whatever the statuses. *)
Theorem active_and_ended_rooms rooms :
  (statusInEnum rooms ->
   Permutation (RoomService.getActiveRooms rooms ++ RoomService.getEndedRooms rooms)
     (RoomService.getAllRooms rooms) /\
   (List.length (RoomService.getActiveRooms rooms)
    + List.length (RoomService.getEndedRooms rooms)
    = List.length rooms)%nat) /\
  (forall r, In r (RoomService.getActiveRooms rooms) ->
             ~ In r (RoomService.getEndedRooms rooms)).
Proof.
  unfold RoomService.getActiveRooms, RoomService.getEndedRooms,
    RoomService.getAllRooms, Room.find.
  split.
  - intros He.
    assert (Hp : Permutation
      (filter (fun r => String.eqb (Room.status r) "active") rooms ++
       filter (fun r => String.eqb (Room.status r) "ended") rooms) rooms).
    { apply filter_split. intros r Hin.
      destruct (He r Hin) as [-> | ->]; reflexivity. }
    split.
    + rewrite Hp.
      replace (filter (fun _ => true) rooms) with rooms; [reflexivity|].
      clear. induction rooms; simpl; congruence.
    + rewrite <- length_app. now apply Permutation_length.
  - intros r Ha Hb. apply filter_In in Ha, Hb.
    destruct Ha as [_ Ha], Hb as [_ Hb].
    apply String.eqb_eq in Ha, Hb. congruence.
Qed.

Lemma active_and_ended_rooms_witness :
  Permutation
    (RoomService.getActiveRooms [Cases.ended; Scenario.room]
     ++ RoomService.getEndedRooms [Cases.ended; Scenario.room])
    (RoomService.getAllRooms [Cases.ended; Scenario.room]).
Proof.
  apply (proj1 (active_and_ended_rooms [Cases.ended; Scenario.room])).
  intros r [<-|[<-|[]]]; [now right | now left].
Defined.

(** X9.  Ending an active room takes one room out of the active listing and
    puts one into the ended listing. *)
Theorem endRoom_moves_room code rooms room :
  Room.findOne code rooms = Some room ->
  Room.status room = "active" ->
  let rooms' := fst (RoomService.endRoom code rooms) in
  (List.length (RoomService.getActiveRooms rooms') + 1
   = List.length (RoomService.getActiveRooms rooms))%nat /\
  (List.length (RoomService.getEndedRooms rooms')
   = List.length (RoomService.getEndedRooms rooms) + 1)%nat /\
  In (Room.setStatus "ended" room) (RoomService.getEndedRooms rooms').
Proof.
  intros Hfind Hact rooms'. unfold rooms'. clear rooms'.
  unfold RoomService.getActiveRooms, RoomService.getEndedRooms, Room.find,
    RoomService.endRoom.
  revert Hfind. induction rooms as [|r rest IH]; simpl; [discriminate|].
  destruct (String.eqb_spec (Room.roomCode r) code) as [E|E].
  - intros H. injection H as ->. simpl. rewrite Hact. simpl.
    repeat split; try lia. now left.
  - intros H. specialize (IH H).
    destruct (Room.findOneAndUpdate code (Room.setStatus "ended") rest)
      as [rest' found]. simpl in *.
    destruct IH as [Ha [He Hin]].
    destruct (String.eqb (Room.status r) "active"),
             (String.eqb (Room.status r) "ended"); simpl;
      repeat split; try lia; auto.
Qed.

Lemma endRoom_moves_room_witness :
  List.length (RoomService.getEndedRooms
                 (fst (RoomService.endRoom "AB12CD" [Cases.ended; Scenario.room])))
  = (List.length (RoomService.getEndedRooms [Cases.ended; Scenario.room]) + 1)%nat.
Proof.
  apply (endRoom_moves_room "AB12CD" [Cases.ended; Scenario.room] Scenario.room
           eq_refl eq_refl).
Defined.

Lemma compareCreatedAt_nonneg x y :
  0 <= Room.compareCreatedAt x y <->
  match x, y with
  | Some a, Some b => b <= a
  | None, Some _ => False
  | _, None => True
  end.
Proof.
  destruct x as [a|], y as [b|]; simpl; lia.
Qed.

Lemma compareCreatedAt_neg x y :
  Room.compareCreatedAt x y < 0 <->
  match x, y with
  | Some a, Some b => a < b
  | None, Some _ => True
  | _, None => False
  end.
Proof.
  destruct x as [a|], y as [b|]; simpl; lia.
Qed.

Lemma createdGe_trans a b c : createdGe a b -> createdGe b c -> createdGe a c.
Proof.
  unfold createdGe. rewrite !compareCreatedAt_nonneg.
  destruct (Room.createdAt a), (Room.createdAt b), (Room.createdAt c);
    try tauto; lia.
Qed.

Lemma insert_byCreatedAt_sorted x l :
  StronglySorted createdGe l ->
  StronglySorted createdGe (JS.insert Room.byCreatedAtDesc x l).
Proof.
  induction 1 as [|y r Hr IH Hy]; simpl.
  - repeat constructor.
  - unfold Room.byCreatedAtDesc at 1.
    destruct (Z.ltb_spec (Room.compareCreatedAt (Room.createdAt x)
                            (Room.createdAt y)) 0) as [Hlt|Hge].
    + constructor; [exact IH|].
      apply (Permutation_Forall (Permutation_sym (insert_Permutation _ x r))).
      constructor; [|exact Hy].
      unfold createdGe. apply compareCreatedAt_neg in Hlt.
      apply compareCreatedAt_nonneg.
      destruct (Room.createdAt x), (Room.createdAt y); try tauto; lia.
    + constructor; [now constructor|].
      constructor; [exact Hge|].
      eapply Forall_impl; [|exact Hy].
      intros z Hz. now apply (createdGe_trans x y z).
Qed.

Lemma sort_byCreatedAt_sorted l :
  StronglySorted createdGe (JS.sort Room.byCreatedAtDesc l).
Proof.
  induction l as [|x r IH]; simpl; [constructor|].
  now apply insert_byCreatedAt_sorted.
Qed.

(** X10.  [getRoomsByTeacher] lists the stored rooms of the teacher, and of
    the status when one is given, each as often as it is stored and no other
    room, from the latest [createdAt] to the earliest, rooms without
    [createdAt] last. *)
Theorem getRoomsByTeacher_listing teacherId status rooms :
  let listed := RoomService.getRoomsByTeacher teacherId status rooms in
  let wanted r :=
    String.eqb (Room.teacherId r) teacherId &&
    match status with
    | Some s => String.eqb s EmptyString || String.eqb (Room.status r) s
    | None => true
    end in
  Permutation listed (filter wanted rooms) /\
  (forall r, In r listed <->
     In r rooms /\ Room.teacherId r = teacherId /\
     (forall s, status = Some s -> s <> EmptyString -> Room.status r = s)) /\
  StronglySorted createdGe listed.
Proof.
  intros listed wanted.
  assert (Hp : Permutation listed (filter wanted rooms)).
  { unfold listed, RoomService.getRoomsByTeacher, Room.find.
    rewrite sort_Permutation.
    replace (filter wanted rooms) with
      (filter (fun r => String.eqb (Room.teacherId r) teacherId &&
                 match status with
                 | Some s => if String.eqb s EmptyString then true
                             else String.eqb (Room.status r) s
                 | None => true
                 end) rooms); [reflexivity|].
    apply filter_ext. intros r. unfold wanted.
    destruct status as [s|]; [|reflexivity].
    now destruct (String.eqb s EmptyString). }
  split; [exact Hp|]. split.
  - intros r. split.
    + intros Hin. apply (Permutation_in _ Hp), filter_In in Hin.
      destruct Hin as [Hin Hw]. unfold wanted in Hw.
      apply andb_true_iff in Hw. destruct Hw as [Ht Hs].
      apply String.eqb_eq in Ht. repeat split; auto.
      intros s -> Hne. apply orb_true_iff in Hs.
      destruct Hs as [Hs|Hs]; apply String.eqb_eq in Hs; congruence.
    + intros [Hin [Ht Hs]].
      apply (Permutation_in _ (Permutation_sym Hp)), filter_In.
      split; [exact Hin|]. unfold wanted. apply andb_true_iff.
      split; [now apply String.eqb_eq|].
      destruct status as [s|]; [|reflexivity].
      destruct (String.eqb_spec s EmptyString) as [E|E]; [reflexivity|].
      simpl. apply String.eqb_eq. now apply Hs.
  - apply sort_byCreatedAt_sorted.
Qed.

(** X11.  With a status, [getRoomsByTeacher] lists the rooms of
    [getRoomsByTeacherAndStatus] in another order; an empty status filters
    nothing; and when the stored statuses are [active] and [ended] only, the
    listing without status is the active and the ended rooms of the teacher
    together. *)
Theorem getRoomsByTeacher_and_status teacherId rooms :
  (forall s, s <> EmptyString ->
     Permutation (RoomService.getRoomsByTeacher teacherId (Some s) rooms)
       (RoomService.getRoomsByTeacherAndStatus teacherId s rooms)) /\
  RoomService.getRoomsByTeacher teacherId (Some EmptyString) rooms
    = RoomService.getRoomsByTeacher teacherId None rooms /\
  (statusInEnum rooms ->
   Permutation (RoomService.getRoomsByTeacher teacherId None rooms)
     (RoomService.getRoomsByTeacherAndStatus teacherId "active" rooms
      ++ RoomService.getRoomsByTeacherAndStatus teacherId "ended" rooms)).
Proof.
  split; [|split].
  - intros s Hs. unfold RoomService.getRoomsByTeacher,
      RoomService.getRoomsByTeacherAndStatus, Room.find.
    rewrite sort_Permutation.
    destruct (String.eqb_spec s EmptyString); [contradiction | reflexivity].
  - reflexivity.
  - intros He. unfold RoomService.getRoomsByTeacher,
      RoomService.getRoomsByTeacherAndStatus, Room.find.
    rewrite sort_Permutation.
    induction rooms as [|r rest IH]; simpl; [reflexivity|].
    assert (He' : statusInEnum rest) by (intros x Hx; apply He; now right).
    specialize (IH He').
    destruct (String.eqb (Room.teacherId r) teacherId); simpl; [|exact IH].
    destruct (He r (or_introl eq_refl)) as [-> | ->]; simpl.
    + now constructor.
    + rewrite <- Permutation_middle. now constructor.
Qed.

Lemma getRoomsByTeacher_and_status_witness :
  Permutation
    (RoomService.getRoomsByTeacher "teacher-1" (Some "ended")
       [Cases.ended; Scenario.room])
    (RoomService.getRoomsByTeacherAndStatus "teacher-1" "ended"
       [Cases.ended; Scenario.room]) /\
  Permutation
    (RoomService.getRoomsByTeacher "teacher-1" None [Cases.ended; Scenario.room])
    (RoomService.getRoomsByTeacherAndStatus "teacher-1" "active"
       [Cases.ended; Scenario.room]
     ++ RoomService.getRoomsByTeacherAndStatus "teacher-1" "ended"
          [Cases.ended; Scenario.room]).
Proof.
  split.
  - apply (proj1 (getRoomsByTeacher_and_status "teacher-1"
                    [Cases.ended; Scenario.room])).
    discriminate.
  - apply (proj2 (proj2 (getRoomsByTeacher_and_status "teacher-1"
                           [Cases.ended; Scenario.room]))).
    intros r [<-|[<-|[]]]; [now right | now left].
Defined.

(** ** The report *)

Lemma sumZ_Permutation {A : Type} (f : A -> Z) (l l' : list A) :
  Permutation l l' -> sumZ (map f l) = sumZ (map f l').
Proof. induction 1; simpl; lia. Qed.

Lemma sumZ_add {A : Type} (f g : A -> Z) (l : list A) :
  sumZ (map (fun x => f x + g x) l) = sumZ (map f l) + sumZ (map g l).
Proof. induction l; simpl; lia. Qed.

Lemma sumZ_score {A : Type} (f g : A -> Z) (l : list A) :
  sumZ (map (fun x => 5 * f x - 2 * g x) l)
  = 5 * sumZ (map f l) - 2 * sumZ (map g l).
Proof.
  unfold sumZ. induction l as [|x l IH]; cbn [map fold_right]; lia.
Qed.

Lemma sumZ_indicator (k : string) (us : list string) :
  NoDup us ->
  sumZ (map (fun u => if String.eqb k u then 1 else 0) us) =
  if existsb (String.eqb k) us then 1 else 0.
Proof.
  induction 1 as [|u us Hnotin Hnd IH]; simpl; [reflexivity|].
  rewrite IH. destruct (String.eqb_spec k u) as [->|Hne]; simpl; [|reflexivity].
  destruct (existsb (String.eqb u) us) eqn:E; [|reflexivity].
  apply existsb_eqb_In in E. contradiction.
Qed.

(** Every answer is the answer of one student. *)
Lemma sum_answeredBy (us : list string) (l : list (Poll.t * Answer.t)) :
  NoDup us ->
  (forall pa, In pa l -> In (Answer.userId (snd pa)) us) ->
  sumZ (map (fun u => Z.of_nat (List.length (filter (answeredBy u) l))) us)
  = Z.of_nat (List.length l).
Proof.
  intros Hnd. induction l as [|pa l IH]; intros Hall.
  - clear. induction us as [|u us IHus]; simpl; auto.
  - transitivity (sumZ (map (fun u =>
        (if String.eqb (Answer.userId (snd pa)) u then 1 else 0)
        + Z.of_nat (List.length (filter (answeredBy u) l))) us)).
    + f_equal. apply map_ext. intros u. cbn [filter]. unfold answeredBy at 1.
      destruct (String.eqb (Answer.userId (snd pa)) u); cbn [List.length]; lia.
    + rewrite sumZ_add, IH by (intros x Hx; apply Hall; now right).
      rewrite sumZ_indicator by exact Hnd.
      assert (E : existsb (String.eqb (Answer.userId (snd pa))) us = true)
        by (apply existsb_eqb_In, Hall; now left).
      rewrite E. cbn [List.length]. lia.
Qed.

Lemma filter_comm {A : Type} (p q : A -> bool) (l : list A) :
  filter p (filter q l) = filter q (filter p l).
Proof.
  induction l as [|x l IH]; simpl; [reflexivity|].
  destruct (p x) eqn:Ep, (q x) eqn:Eq; simpl; rewrite ?Ep, ?Eq, IH; reflexivity.
Qed.

Lemma respondents_cover room (p : Poll.t * Answer.t -> bool) pa :
  In pa (filter p (answersOf room)) ->
  In (Answer.userId (snd pa)) (respondents room).
Proof.
  intros Hin. apply filter_In in Hin. destruct Hin as [Hin _].
  unfold respondents. apply In_distinct.
  now apply (in_map (fun x => Answer.userId (snd x))).
Qed.

Lemma sum_countCorrect room :
  sumZ (map (fun u => countCorrect u (answersOf room)) (respondents room))
  = Z.of_nat (List.length (filter isCorrect (answersOf room))).
Proof.
  unfold countCorrect.
  rewrite <- (sum_answeredBy (respondents room) (filter isCorrect (answersOf room))).
  - f_equal. apply map_ext. intros u. now rewrite filter_comm.
  - apply NoDup_distinct.
  - intros pa. apply respondents_cover.
Qed.

Lemma sum_countWrong room :
  sumZ (map (fun u => countWrong u (answersOf room)) (respondents room))
  = Z.of_nat (List.length
      (filter (fun pa => negb (isCorrect pa)) (answersOf room))).
Proof.
  unfold countWrong.
  rewrite <- (sum_answeredBy (respondents room)
                (filter (fun pa => negb (isCorrect pa)) (answersOf room))).
  - f_equal. apply map_ext. intros u. now rewrite filter_comm.
  - apply NoDup_distinct.
  - intros pa. apply respondents_cover.
Qed.

Lemma length_filter_split {A : Type} (p : A -> bool) (l : list A) :
  (List.length (filter p l) + List.length (filter (fun x => negb (p x)) l)
   = List.length l)%nat.
Proof. induction l as [|x l IH]; simpl; [reflexivity|]. destruct (p x); simpl; lia. Qed.

Lemma sum_correctCount room :
  sumZ (map Question.correctCount (map RoomService.toQuestion (Room.polls room)))
  = Z.of_nat (List.length (filter isCorrect (answersOf room))).
Proof.
  unfold answersOf. induction (Room.polls room) as [|p ps IH]; [reflexivity|].
  cbn [map sumZ fold_right flat_map]. fold (sumZ (map Question.correctCount
    (map RoomService.toQuestion ps))).
  rewrite IH, filter_app, length_app, Nat2Z.inj_add. f_equal.
  unfold RoomService.toQuestion. cbn [Question.correctCount]. f_equal.
  induction (Poll.answers p) as [|a l IHl]; [reflexivity|].
  cbn [map filter]. unfold isCorrect at 1. cbn [fst snd].
  destruct (Answer.answerIndex a =? Poll.correctOptionIndex p);
    cbn [List.length]; now rewrite IHl.
Qed.

(** X12.  The two halves of a report agree: the [correct] counts of the
    participants add up to the [correctCount]s of the questions, the
    [correct] and [wrong] counts together add up to the number of answers
    stored in the room, and the scores add up to five times the one sum less
    twice the other. *)
Theorem report_totals code rooms userModel rep :
  RoomService.getPollAnalysis code rooms userModel = Ok rep ->
  exists room,
    Room.findOne code rooms = Some room /\
    sumZ (map Participant.correct (Analysis.participants rep))
      = sumZ (map Question.correctCount (Analysis.questions rep)) /\
    sumZ (map Participant.correct (Analysis.participants rep))
    + sumZ (map Participant.wrong (Analysis.participants rep))
      = Z.of_nat (List.length (answersOf room)) /\
    sumZ (map Participant.score (Analysis.participants rep))
      = 5 * sumZ (map Participant.correct (Analysis.participants rep))
        - 2 * sumZ (map Participant.wrong (Analysis.participants rep)).
Proof.
  intros H. destruct (getPollAnalysis_Ok _ _ _ _ H) as [room [Hfind [Hp Hq]]].
  exists room. split; [exact Hfind|].
  assert (Hperm : Permutation (Analysis.participants rep)
            (map (expectedParticipant userModel room) (respondents room)))
    by (rewrite Hp; apply sort_Permutation).
  rewrite !(sumZ_Permutation _ _ _ Hperm), !map_map, Hq.
  cbn [expectedParticipant Participant.correct Participant.wrong Participant.score].
  rewrite sum_countCorrect, sum_countWrong, sum_correctCount.
  split; [reflexivity|]. split.
  - rewrite <- Nat2Z.inj_add. f_equal. apply length_filter_split.
  - rewrite <- sum_countCorrect, <- sum_countWrong.
    apply sumZ_score.
Qed.

Lemma report_totals_witness :
  sumZ (map Participant.correct (Analysis.participants Cases.report))
  = sumZ (map Question.correctCount (Analysis.questions Cases.report)).
Proof.
  destruct (report_totals "AB12CD" [Scenario.room] Scenario.users Cases.report
              eq_refl) as [room [_ [H _]]].
  exact H.
Defined.

(** X13.  The report has one question per poll of the room, in the order of
    the polls, with the poll's text; its [correctCount] lies between 0 and
    the number of the poll's answers, and is 0 exactly when no answer of the
    poll carries the poll's [correctOptionIndex]. *)
Theorem report_questions code rooms userModel rep :
  RoomService.getPollAnalysis code rooms userModel = Ok rep ->
  exists room,
    Room.findOne code rooms = Some room /\
    Forall2 (fun p q =>
               Question.text q = Poll.question p /\
               0 <= Question.correctCount q
                 <= Z.of_nat (List.length (Poll.answers p)) /\
               (Question.correctCount q = 0 <->
                forall a, In a (Poll.answers p) ->
                          Answer.answerIndex a <> Poll.correctOptionIndex p))
            (Room.polls room) (Analysis.questions rep).
Proof.
  intros H. destruct (getPollAnalysis_Ok _ _ _ _ H) as [room [Hfind [_ Hq]]].
  exists room. split; [exact Hfind|]. rewrite Hq. clear.
  induction (Room.polls room) as [|p ps IH]; simpl; constructor; [|exact IH].
  split; [reflexivity|]. clear.
  unfold RoomService.toQuestion. cbn [Question.correctCount].
  induction (Poll.answers p) as [|a l [Hb Hz]]; cbn [filter List.length].
  - split; [lia|]. split; [intros _ a []|reflexivity].
  - destruct (Z.eqb_spec (Answer.answerIndex a) (Poll.correctOptionIndex p))
      as [E|E]; cbn [List.length]; split; try lia.
    + split; [lia|]. intros Hall. exfalso.
      exact (Hall a (or_introl eq_refl) E).
    + rewrite Hz. split.
      * intros Hall b [<-|Hb']; auto.
      * intros Hall b Hb'. apply Hall. now right.
Qed.

Lemma report_questions_witness :
  exists room,
    Room.findOne "AB12CD" [Scenario.room] = Some room /\
    List.length (Room.polls room) = List.length (Analysis.questions Cases.report).
Proof.
  destruct (report_questions "AB12CD" [Scenario.room] Scenario.users Cases.report
              eq_refl) as [room [Hf HF]].
  exists room. split; [exact Hf|]. exact (Forall2_length HF).
Defined.

Lemma participants_In code rooms userModel rep p :
  RoomService.getPollAnalysis code rooms userModel = Ok rep ->
  In p (Analysis.participants rep) ->
  exists room u,
    Room.findOne code rooms = Some room /\ In u (respondents room) /\
    p = expectedParticipant userModel room u.
Proof.
  intros H Hin. destruct (getPollAnalysis_Ok _ _ _ _ H) as [room [Hfind [Hp _]]].
  rewrite Hp in Hin. apply (Permutation_in _ (sort_Permutation _ _)) in Hin.
  apply in_map_iff in Hin. destruct Hin as [u [<- Hu]].
  exists room, u. auto.
Qed.

Lemma length_filter_le {A : Type} (p : A -> bool) (l : list A) :
  (List.length (filter p l) <= List.length l)%nat.
Proof. induction l as [|x l IH]; simpl; [lia|]. destruct (p x); simpl; lia. Qed.

(** X14.  Every participant of a report has answered at least once: the
    counts [correct] and [wrong] are not negative and add up to a number
    from 1 to the number of answers stored in the room; the score lies
    between minus twice and five times that number. *)
Theorem participant_bounds code rooms userModel rep p :
  RoomService.getPollAnalysis code rooms userModel = Ok rep ->
  In p (Analysis.participants rep) ->
  exists room,
    Room.findOne code rooms = Some room /\
    0 <= Participant.correct p /\ 0 <= Participant.wrong p /\
    1 <= Participant.correct p + Participant.wrong p
      <= Z.of_nat (List.length (answersOf room)) /\
    - 2 * (Participant.correct p + Participant.wrong p) <= Participant.score p
      <= 5 * (Participant.correct p + Participant.wrong p).
Proof.
  intros H Hin.
  destruct (participants_In _ _ _ _ _ H Hin) as [room [u [Hfind [Hu ->]]]].
  exists room. split; [exact Hfind|].
  cbn [expectedParticipant Participant.correct Participant.wrong Participant.score].
  unfold countCorrect, countWrong.
  pose proof (length_filter_split isCorrect (filter (answeredBy u) (answersOf room)))
    as Hsplit.
  pose proof (length_filter_le (answeredBy u) (answersOf room)) as Hle.
  assert (Hpos : (1 <= List.length (filter (answeredBy u) (answersOf room)))%nat).
  { unfold respondents in Hu. apply In_distinct, in_map_iff in Hu.
    destruct Hu as [pa [Hpa Hin']].
    assert (Hf : In pa (filter (answeredBy u) (answersOf room))).
    { apply filter_In. split; [exact Hin'|]. unfold answeredBy.
      now apply String.eqb_eq. }
    destruct (filter (answeredBy u) (answersOf room)); [destruct Hf | simpl; lia]. }
  lia.
Qed.

Lemma participant_bounds_witness :
  exists room,
    Room.findOne "AB12CD" [Scenario.room] = Some room /\
    0 <= Participant.correct (Participant.mk "Ada" 10 2 0 "N/A").
Proof.
  destruct (participant_bounds "AB12CD" [Scenario.room] Scenario.users Cases.report
              (Participant.mk "Ada" 10 2 0 "N/A") eq_refl (or_introl eq_refl))
    as [room [Hf [Hc _]]].
  exists room. split; assumption.
Defined.

(** X15.  No report shows a time: the [timeTaken] of every participant is
    [N/A]. *)
Theorem timeTaken_not_available code rooms userModel rep p :
  RoomService.getPollAnalysis code rooms userModel = Ok rep ->
  In p (Analysis.participants rep) ->
  Participant.timeTaken p = "N/A"%string.
Proof.
  intros H Hin.
  destruct (participants_In _ _ _ _ _ H Hin) as [room [u [_ [_ ->]]]].
  reflexivity.
Qed.

Lemma timeTaken_not_available_witness :
  Participant.timeTaken (Participant.mk "Anonymous" 3 1 1 "N/A") = "N/A"%string.
Proof.
  apply (timeTaken_not_available "AB12CD" [Scenario.room] Scenario.users
           Cases.report _ eq_refl).
  right. now left.
Defined.

Lemma length_append (a b : string) :
  String.length (a ++ b)%string = (String.length a + String.length b)%nat.
Proof. induction a; simpl; congruence. Qed.

Lemma ceilDiv_spec a b n :
  0 < b -> (JS.ceilDiv a b = n <-> b * (n - 1) < a <= b * n).
Proof.
  intros Hb. unfold JS.ceilDiv.
  pose proof (Z.div_mod (- a) b) as Hdm.
  pose proof (Z.mod_pos_bound (- a) b Hb) as Hmod.
  split; intros H; nia.
Qed.

Lemma numberToString_inj n m :
  JS.numberToString n = JS.numberToString m -> n = m.
Proof.
  unfold JS.numberToString. intros H.
  assert (Hnil : forall z, Z.to_int z <> Decimal.Pos Decimal.Nil /\
                           Z.to_int z <> Decimal.Neg Decimal.Nil).
  { intros [|p|p]; simpl; split; try discriminate; intros E; injection E;
      apply DecimalPos.Unsigned.to_uint_nonnil. }
  apply DecimalZ.to_int_inj.
  pose proof (NilZero.isi (Z.to_int n) (proj1 (Hnil n)) (proj2 (Hnil n))) as Hn.
  pose proof (NilZero.isi (Z.to_int m) (proj1 (Hnil m)) (proj2 (Hnil m))) as Hm.
  rewrite H in Hn. congruence.
Qed.

Lemma roundHalfEven_spec n d :
  0 < d ->
  - d <= 2 * (JS.roundHalfEven n d * d - n) <= d.
Proof.
  intros Hd. unfold JS.roundHalfEven.
  pose proof (Z.div_mod n d ltac:(lia)) as Hdm.
  pose proof (Z.mod_pos_bound n d Hd) as Hmod.
  destruct (Z.ltb_spec (2 * (n mod d)) d);
    [|destruct (Z.ltb_spec d (2 * (n mod d))); [|destruct (Z.even (n / d))]];
    nia.
Qed.

Lemma pow2_15_le s : 15 <= s -> 32768 <= 2 ^ s.
Proof.
  intros Hs. change 32768 with (2 ^ 15). apply Z.pow_le_mono_r; lia.
Qed.

(** Below 2^38 the rounding of a quotient by 60000 never reaches the next
    whole number: [Math.ceil] and [Math.floor] see what exact division
    gives. *)
Lemma rounded_quotient n m P :
  0 <= n -> 32768 <= P ->
  - 60000 <= 2 * (m * 60000 - n * P) <= 60000 ->
  - ((- m) / P) = JS.ceilDiv n 60000 /\ m / P = n / 60000.
Proof.
  intros Hn HP Hm. split.
  - change (- (- m / P)) with (JS.ceilDiv m P).
    apply ceilDiv_spec; [lia|].
    pose proof (proj1 (ceilDiv_spec n 60000 (JS.ceilDiv n 60000) ltac:(lia)) eq_refl)
      as Hk.
    nia.
  - symmetry. apply (Z.div_unique m P (n / 60000) (m - P * (n / 60000))); [|lia].
    pose proof (Z.div_mod n 60000 ltac:(lia)) as Hdm.
    pose proof (Z.mod_pos_bound n 60000 ltac:(lia)) as Hmod.
    left. nia.
Qed.

Lemma exponentOf_minutes n :
  0 < n <= 2 ^ 53 -> JS.exponentOf n 60000 <= 37.
Proof.
  intros Hn. destruct (Z.eq_dec n (2 ^ 53)) as [->|Hne]; [now vm_compute|].
  assert (Hlog : Z.log2 n < 53) by (apply Z.log2_lt_pow2; lia).
  unfold JS.exponentOf. change (Z.log2 60000) with 15.
  destruct (_ <=? _); lia.
Qed.

Lemma ceilOfQuotient_minutes z :
  Z.abs z <= 2 ^ 53 -> JS.ceilOfQuotient z 60000 = JS.ceilDiv z 60000.
Proof.
  intros Hz. unfold JS.ceilOfQuotient.
  destruct (Z.eqb_spec z 0) as [->|Hne]; [reflexivity|].
  unfold JS.nearestDouble.
  pose proof (exponentOf_minutes (Z.abs z) ltac:(lia)) as He.
  set (s := 52 - JS.exponentOf (Z.abs z) 60000) in *.
  assert (Hs : 15 <= s) by (unfold s; lia).
  rewrite (Z.max_r 0 s) by lia. rewrite (Z.max_l 0 (- s)) by lia.
  rewrite Z.pow_0_r, Z.mul_1_r.
  destruct (Z.leb_spec 0 s); [|lia].
  pose proof (roundHalfEven_spec (Z.abs z * 2 ^ s) 60000 ltac:(lia)) as Hm.
  destruct (rounded_quotient (Z.abs z) _ (2 ^ s) ltac:(lia) (pow2_15_le s Hs) Hm)
    as [Hceil Hfloor].
  destruct (Z.ltb_spec 0 z).
  - rewrite Hceil. f_equal. lia.
  - rewrite Hfloor. unfold JS.ceilDiv. f_equal. f_equal. lia.
Qed.

Lemma doubleOfZ_exact z : Z.abs z <= 2 ^ 53 -> JS.doubleOfZ z = z.
Proof.
  intros Hz. unfold JS.doubleOfZ.
  destruct (Z.eqb_spec z 0) as [->|Hne]; [reflexivity|].
  destruct (Z.eq_dec (Z.abs z) (2 ^ 53)) as [E|E].
  { rewrite E. destruct z; try discriminate; simpl in E;
      injection E as ->; now vm_compute. }
  assert (Hpos : 0 < Z.abs z) by lia.
  assert (Hlog : Z.log2 (Z.abs z) < 53) by (apply Z.log2_lt_pow2; lia).
  pose proof (Z.log2_nonneg (Z.abs z)) as Hl0.
  pose proof (Z.log2_spec (Z.abs z) Hpos) as [Hlo _].
  unfold JS.nearestDouble, JS.exponentOf. change (Z.log2 1) with 0.
  rewrite Z.sub_0_r.
  rewrite (Z.max_r 0 (Z.log2 (Z.abs z))) by lia.
  rewrite (Z.max_l 0 (- Z.log2 (Z.abs z))) by lia.
  rewrite Z.pow_0_r, Z.mul_1_l, Z.mul_1_r.
  destruct (Z.leb_spec (2 ^ Z.log2 (Z.abs z)) (Z.abs z)); [|lia].
  set (s := 52 - Z.log2 (Z.abs z)).
  assert (Hs : 0 <= s) by (unfold s; lia).
  rewrite (Z.max_r 0 s) by lia. rewrite (Z.max_l 0 (- s)) by lia.
  rewrite Z.pow_0_r, Z.mul_1_l.
  destruct (Z.leb_spec 0 s); [|lia].
  unfold JS.roundHalfEven. rewrite Z.mod_1_r, Z.div_1_r. cbn [Z.mul Z.ltb Z.compare].
  rewrite Z.div_mul by (apply Z.pow_nonzero; lia).
  lia.
Qed.

(** X16.  The duration of a report is [N/A] exactly when the room lacks
    [endedAt] or [createdAt].  For two valid dates at most 2^53 ms apart it
    is the number of minutes from the one to the other, a started minute
    counted whole, followed by [mins], and different numbers give different
    texts; for a date that is not valid it is [NaN mins]. *)
Theorem report_duration code rooms userModel rep :
  RoomService.getPollAnalysis code rooms userModel = Ok rep ->
  exists room,
    Room.findOne code rooms = Some room /\
    (Analysis.duration rep = "N/A"%string <->
     Room.endedAt room = None \/ Room.createdAt room = None) /\
    (forall ended created,
       Room.endedAt room = Some ended -> Room.createdAt room = Some created ->
       (JS.validTime ended = true -> JS.validTime created = true ->
        Z.abs (ended - created) <= 2 ^ 53 ->
        exists n,
          Analysis.duration rep = (JS.numberToString n ++ " mins")%string /\
          60000 * (n - 1) < ended - created <= 60000 * n /\
          forall m, JS.numberToString m = JS.numberToString n -> m = n) /\
       (JS.validTime ended && JS.validTime created = false ->
        Analysis.duration rep = "NaN mins"%string)).
Proof.
  unfold RoomService.getPollAnalysis.
  destruct (Room.findOne code rooms) as [room|]; [|discriminate].
  intros H. injection H as <-. exists room. split; [reflexivity|].
  cbn [Analysis.duration]. unfold RoomService.duration.
  destruct (Room.endedAt room) as [e|], (Room.createdAt room) as [c|].
  - split.
    + split; [|intros [H|H]; discriminate].
      destruct (JS.validTime e && JS.validTime c); [|discriminate].
      intros H. apply (f_equal String.length) in H.
      rewrite length_append in H. simpl in H. lia.
    + intros ended created He Hc. injection He as <-. injection Hc as <-.
      split.
      * intros Ve Vc Habs. rewrite Ve, Vc. cbn [andb].
        rewrite doubleOfZ_exact, ceilOfQuotient_minutes by exact Habs.
        exists (JS.ceilDiv (e - c) 60000). split; [reflexivity|].
        split; [now apply ceilDiv_spec
               | intros m Hm; now apply numberToString_inj].
      * intros ->. reflexivity.
  - split; [tauto | discriminate].
  - split; [tauto | discriminate].
  - split; [tauto | discriminate].
Qed.

Lemma report_duration_witness :
  RoomService.getPollAnalysis "DD22DD" [Cases.dated] []
    = Ok (Analysis.mk "r5" "Dated" (Some 1000) "2 mins" [] []) /\
  exists n,
    ("2 mins" = JS.numberToString n ++ " mins")%string /\
    60000 * (n - 1) < 62000 - 1000 <= 60000 * n.
Proof.
  split; [reflexivity|].
  destruct (report_duration "DD22DD" [Cases.dated] []
              (Analysis.mk "r5" "Dated" (Some 1000) "2 mins" [] []) eq_refl)
    as [room [Hf [_ Hd]]].
  injection Hf as <-.
  destruct (proj1 (Hd 62000 1000 eq_refl eq_refl) eq_refl eq_refl ltac:(cbn; lia))
    as [n [Hn [Hb _]]].
  exists n. split; assumption.
Defined.

(** A room that carries both dates: 61 seconds are two minutes; across more
    than 2^53 ms the difference is rounded before it is divided. *)
Example duration_rounds_up :
  RoomService.duration Cases.dated = "2 mins"%string /\
  RoomService.duration
    (Room.mk "r6" "EE33EE" "Long" "teacher-1"
       (Some (-960000000000001)) (Some 8640000000000000) "ended" [])
  = "160000000000 mins"%string.
Proof. split; reflexivity. Qed.

Lemma filter_insert_byScore s x l :
  filter (fun p => Participant.score p =? s) (JS.insert RoomService.byScore x l)
  = filter (fun p => Participant.score p =? s) (x :: l).
Proof.
  induction l as [|y r IH]; [reflexivity|].
  cbn [JS.insert]. unfold RoomService.byScore at 1.
  destruct (Z.ltb_spec (Participant.score x - Participant.score y) 0) as [Hlt|Hge];
    [|reflexivity].
  cbn [filter] in *. rewrite IH.
  destruct (Z.eqb_spec (Participant.score y) s) as [Ey|Ey];
    destruct (Z.eqb_spec (Participant.score x) s) as [Ex|Ex]; try reflexivity.
  lia.
Qed.

Lemma filter_sort_byScore s l :
  filter (fun p => Participant.score p =? s) (JS.sort RoomService.byScore l)
  = filter (fun p => Participant.score p =? s) l.
Proof.
  induction l as [|x r IH]; [reflexivity|].
  cbn [JS.sort]. rewrite filter_insert_byScore. cbn [filter]. now rewrite IH.
Qed.

(** X17.  Participants with the same score stand in the report in the order
    in which they first answered: for every score, the participants of that
    score are the records of the respondents of that score, in the
    respondents' order. *)
Theorem equal_scores_keep_order code rooms userModel rep s :
  RoomService.getPollAnalysis code rooms userModel = Ok rep ->
  exists room,
    Room.findOne code rooms = Some room /\
    filter (fun p => Participant.score p =? s) (Analysis.participants rep)
    = filter (fun p => Participant.score p =? s)
        (map (expectedParticipant userModel room) (respondents room)).
Proof.
  intros H. destruct (getPollAnalysis_Ok _ _ _ _ H) as [room [Hfind [Hp _]]].
  exists room. split; [exact Hfind|]. rewrite Hp. apply filter_sort_byScore.
Qed.

Lemma equal_scores_keep_order_witness :
  exists room,
    Room.findOne "AB12CD" [Scenario.room] = Some room /\
    filter (fun p => Participant.score p =? 3) (Analysis.participants Cases.report)
    = filter (fun p => Participant.score p =? 3)
        (map (expectedParticipant Scenario.users room) (respondents room)).
Proof.
  apply (equal_scores_keep_order "AB12CD" [Scenario.room] Scenario.users
           Cases.report 3 eq_refl).
Defined.

Section SortMap.
Context {A B : Type} (g : A -> B) (cmpA : A -> A -> Z) (cmpB : B -> B -> Z).
Hypothesis cmp_map : forall a b, cmpB (g a) (g b) = cmpA a b.

Lemma insert_map x l :
  JS.insert cmpB (g x) (map g l) = map g (JS.insert cmpA x l).
Proof.
  induction l as [|y r IH]; [reflexivity|].
  cbn [map JS.insert]. rewrite cmp_map.
  destruct (cmpA y x <? 0); [|reflexivity].
  cbn [map]. now rewrite IH.
Qed.

Lemma sort_map l : JS.sort cmpB (map g l) = map g (JS.sort cmpA l).
Proof.
  induction l as [|x r IH]; [reflexivity|].
  cbn [map JS.sort]. now rewrite IH, insert_map.
Qed.
End SortMap.

(** X18.  The user collection decides the names of a report and nothing
    else: over two user collections the reports of a room have the same
    questions and, place by place, participants with the same score,
    [correct] and [wrong]; a student without user document is named
    [Anonymous]. *)
Theorem report_names_only code rooms users1 users2 rep1 rep2 :
  RoomService.getPollAnalysis code rooms users1 = Ok rep1 ->
  RoomService.getPollAnalysis code rooms users2 = Ok rep2 ->
  map marks (Analysis.participants rep1) = map marks (Analysis.participants rep2) /\
  Analysis.questions rep1 = Analysis.questions rep2 /\
  Analysis.duration rep1 = Analysis.duration rep2 /\
  (users1 = [] ->
   Forall (fun p => Participant.name p = "Anonymous"%string)
     (Analysis.participants rep1)).
Proof.
  intros H1 H2.
  destruct (getPollAnalysis_Ok _ _ _ _ H1) as [room [Hfind [Hp1 Hq1]]].
  destruct (getPollAnalysis_Ok _ _ _ _ H2) as [room' [Hfind' [Hp2 Hq2]]].
  assert (room' = room) by congruence. subst room'.
  split; [|split; [congruence|split]].
  - rewrite Hp1, Hp2.
    set (cmpU := fun u v : string =>
           RoomService.byScore (expectedParticipant users1 room u)
                               (expectedParticipant users1 room v)).
    rewrite (sort_map (expectedParticipant users1 room) cmpU RoomService.byScore)
      by reflexivity.
    rewrite (sort_map (expectedParticipant users2 room) cmpU RoomService.byScore)
      by reflexivity.
    rewrite !map_map. reflexivity.
  - unfold RoomService.getPollAnalysis in H1, H2. rewrite Hfind in H1, H2.
    injection H1 as <-. injection H2 as <-. reflexivity.
  - intros ->. apply Forall_forall. intros p Hin.
    destruct (participants_In _ _ _ _ _ H1 Hin) as [r [u [_ [_ ->]]]].
    reflexivity.
Qed.

Lemma report_names_only_witness :
  map marks (Analysis.participants Cases.report)
  = map marks
      [Participant.mk "Anonymous" 10 2 0 "N/A"; Participant.mk "Anonymous" 3 1 1 "N/A"].
Proof.
  apply (report_names_only "AB12CD" [Scenario.room] Scenario.users []
           Cases.report
           (Analysis.mk "r1" "Algebra" (Some 0) "N/A"
              [Participant.mk "Anonymous" 10 2 0 "N/A";
               Participant.mk "Anonymous" 3 1 1 "N/A"]
              [Question.mk "first" 1; Question.mk "second" 2])
           eq_refl eq_refl).
Defined.

(** X19.  The report of a room that [createRoom] has just returned is empty:
    no participants, no questions, no duration; the reports of all other
    codes are as before. *)
Theorem createRoom_then_report random36 oid now name teacherId rooms rooms' room
    userModel :
  RoomService.createRoom random36 oid now name teacherId rooms = (rooms', Ok room) ->
  RoomService.getPollAnalysis (Room.roomCode room) rooms' userModel
    = Ok (Analysis.mk oid name (Some now) "N/A" [] []) /\
  (forall code, code <> Room.roomCode room ->
     RoomService.getPollAnalysis code rooms' userModel
     = RoomService.getPollAnalysis code rooms userModel).
Proof.
  intros H. destruct (createRoom_findOne _ _ _ _ _ _ _ _ H)
    as [Hroom [Hget [_ Hother]]].
  unfold RoomService.getPollAnalysis. split.
  - rewrite Hget, Hroom. reflexivity.
  - intros code Hne. now rewrite (Hother code Hne).
Qed.

Lemma createRoom_then_report_witness :
  RoomService.getPollAnalysis "4FZZZX"
    [Scenario.room; newRoom "0.4fzzzxjylrx" "o9" 7 "Algebra" "teacher-1"]
    Scenario.users
  = Ok (Analysis.mk "o9" "Algebra" (Some 7) "N/A" [] []).
Proof.
  apply (createRoom_then_report "0.4fzzzxjylrx" "o9" 7 "Algebra" "teacher-1"
           [Scenario.room] _ _ Scenario.users eq_refl).
Defined.

Lemma Permutation_filter' {A : Type} (p : A -> bool) (l l' : list A) :
  Permutation l l' -> Permutation (filter p l) (filter p l').
Proof.
  induction 1 as [|x l l' _ IH|x y l|l l' l'' _ IH1 _ IH2]; simpl.
  - reflexivity.
  - destruct (p x); [now constructor | exact IH].
  - destruct (p x), (p y); try reflexivity. apply perm_swap.
  - now transitivity (filter p l').
Qed.

Lemma countCorrect_outcomes u room :
  countCorrect u (answersOf room) =
  Z.of_nat (List.length
    (filter (fun o => String.eqb (fst o) u && snd o) (outcomes room))).
Proof.
  unfold countCorrect, outcomes. f_equal.
  induction (answersOf room) as [|pa l IH]; [reflexivity|].
  cbn [map filter fst snd]. unfold answeredBy at 1.
  destruct (String.eqb (Answer.userId (snd pa)) u); cbn [filter andb]; [|exact IH].
  destruct (isCorrect pa); cbn [List.length]; now rewrite IH.
Qed.

Lemma countWrong_outcomes u room :
  countWrong u (answersOf room) =
  Z.of_nat (List.length
    (filter (fun o => String.eqb (fst o) u && negb (snd o)) (outcomes room))).
Proof.
  unfold countWrong, outcomes. f_equal.
  induction (answersOf room) as [|pa l IH]; [reflexivity|].
  cbn [map filter fst snd]. unfold answeredBy at 1.
  destruct (String.eqb (Answer.userId (snd pa)) u); cbn [filter andb]; [|exact IH].
  destruct (isCorrect pa); cbn [negb List.length]; now rewrite IH.
Qed.

Lemma respondents_outcomes room :
  respondents room = distinct (map fst (outcomes room)).
Proof. unfold respondents, outcomes. now rewrite map_map. Qed.

(** X20.  The records of a report depend on the stored answers only through
    who answered and whether each answer hit: two rooms whose answers give
    the same outcomes in any order, as after reordering polls or answers,
    have the same participant records up to their order. *)
Theorem report_ignores_answer_order code1 code2 rooms1 rooms2 userModel
    room1 room2 rep1 rep2 :
  Room.findOne code1 rooms1 = Some room1 ->
  Room.findOne code2 rooms2 = Some room2 ->
  Permutation (outcomes room1) (outcomes room2) ->
  RoomService.getPollAnalysis code1 rooms1 userModel = Ok rep1 ->
  RoomService.getPollAnalysis code2 rooms2 userModel = Ok rep2 ->
  Permutation (Analysis.participants rep1) (Analysis.participants rep2).
Proof.
  intros Hf1 Hf2 Hperm H1 H2.
  destruct (getPollAnalysis_Ok _ _ _ _ H1) as [r1 [Hf1' [Hp1 _]]].
  destruct (getPollAnalysis_Ok _ _ _ _ H2) as [r2 [Hf2' [Hp2 _]]].
  assert (r1 = room1) by congruence. assert (r2 = room2) by congruence.
  subst r1 r2. rewrite Hp1, Hp2, !sort_Permutation.
  assert (Hexp : forall u, expectedParticipant userModel room1 u
                           = expectedParticipant userModel room2 u).
  { intros u. unfold expectedParticipant.
    rewrite !countCorrect_outcomes, !countWrong_outcomes.
    rewrite (Permutation_length (Permutation_filter' _ _ _ Hperm)).
    rewrite (Permutation_length
      (Permutation_filter' (fun o => String.eqb (fst o) u && negb (snd o)) _ _ Hperm)).
    reflexivity. }
  rewrite (map_ext _ _ Hexp). apply Permutation_map.
  rewrite !respondents_outcomes.
  apply NoDup_Permutation; try apply NoDup_distinct.
  intros u. rewrite !In_distinct.
  split; apply Permutation_in; [|apply Permutation_sym]; now apply Permutation_map.
Qed.

Lemma report_ignores_answer_order_witness :
  Permutation
    (Analysis.participants Cases.report)
    [Participant.mk "Ada" 10 2 0 "N/A"; Participant.mk "Anonymous" 3 1 1 "N/A"].
Proof.
  pose (swapped := Room.mk "r1" "AB12CD" "Algebra" "teacher-1" (Some 0) None "active"
                     [Scenario.pollB; Scenario.pollA]).
  apply (report_ignores_answer_order "AB12CD" "AB12CD" [Scenario.room] [swapped]
           Scenario.users Scenario.room swapped Cases.report
           (Analysis.mk "r1" "Algebra" (Some 0) "N/A"
              [Participant.mk "Ada" 10 2 0 "N/A"; Participant.mk "Anonymous" 3 1 1 "N/A"]
              [Question.mk "second" 2; Question.mk "first" 1])
           eq_refl eq_refl).
  - apply (Permutation_app_comm
             [("u1"%string, true); ("u2"%string, false)]
             [("u1"%string, true); ("u2"%string, true)]).
  - reflexivity.
  - reflexivity.
Defined.

(** * Properties of the pages *)

(** ** Generated questions *)

Lemma findIndexFrom_none {A : Type} (p : A -> bool) i l :
  existsb p l = false -> JS.findIndexFrom p i l = -1.
Proof.
  revert i. induction l as [|x r IH]; intros i; simpl; [reflexivity|].
  destruct (p x); simpl; [discriminate | apply IH].
Qed.

Lemma findIndexFrom_found {A : Type} (p : A -> bool) i l :
  existsb p l = true ->
  exists k o,
    JS.findIndexFrom p i l = i + Z.of_nat k /\
    nth_error l k = Some o /\ p o = true /\
    forall j o', (j < k)%nat -> nth_error l j = Some o' -> p o' = false.
Proof.
  revert i. induction l as [|x r IH]; intros i; simpl; [discriminate|].
  destruct (p x) eqn:Ex; simpl.
  - intros _. exists 0%nat, x.
    split; [lia|]. split; [reflexivity|]. split; [exact Ex|].
    intros j o' Hj. lia.
  - intros H. destruct (IH (i + 1) H) as [k [o [Hi [Hn [Hp Hbefore]]]]].
    exists (S k), o.
    split; [lia|]. split; [exact Hn|]. split; [exact Hp|].
    intros [|j] o' Hj Hnth; simpl in Hnth.
    + now injection Hnth as <-.
    + apply (Hbefore j); [lia | exact Hnth].
Qed.

Lemma toGeneratedQuestion_spec q :
  let g := TeacherPollRoom.toGeneratedQuestion q in
  TeacherPollRoom.question g = TeacherPollRoom.questionText q /\
  List.length (TeacherPollRoom.options g)
    = match TeacherPollRoom.apiOptions q with
      | Some os => List.length os
      | None => 0%nat
      end /\
  0 <= TeacherPollRoom.correctOptionIndex g /\
  (TeacherPollRoom.options g <> [] ->
   TeacherPollRoom.correctOptionIndex g
     < Z.of_nat (List.length (TeacherPollRoom.options g))) /\
  (forall os, TeacherPollRoom.apiOptions q = Some os ->
     (existsb TeacherPollRoom.correct os = true ->
      exists o,
        nth_error os (Z.to_nat (TeacherPollRoom.correctOptionIndex g)) = Some o /\
        TeacherPollRoom.correct o = true /\
        forall j o', (j < Z.to_nat (TeacherPollRoom.correctOptionIndex g))%nat ->
                     nth_error os j = Some o' ->
                     TeacherPollRoom.correct o' = false) /\
     (existsb TeacherPollRoom.correct os = false ->
      TeacherPollRoom.correctOptionIndex g = 0)) /\
  (TeacherPollRoom.apiOptions q = None ->
   TeacherPollRoom.options g = [] /\ TeacherPollRoom.correctOptionIndex g = 0).
Proof.
  intros g. unfold g, TeacherPollRoom.toGeneratedQuestion.
  cbn [TeacherPollRoom.question TeacherPollRoom.options
       TeacherPollRoom.correctOptionIndex].
  destruct (TeacherPollRoom.apiOptions q) as [os|].
  2:{ cbn. repeat split; try lia; try congruence; intros; discriminate. }
  rewrite length_map.
  split; [reflexivity|]. split; [reflexivity|].
  unfold JS.findIndex.
  destruct (existsb TeacherPollRoom.correct os) eqn:Ex.
  - destruct (findIndexFrom_found TeacherPollRoom.correct 0 os Ex)
      as [k [o [Hi [Hn [Hp Hbefore]]]]].
    rewrite Hi.
    assert (Hk : (k < List.length os)%nat)
      by (apply nth_error_Some; congruence).
    destruct (Z.leb_spec 0 (0 + Z.of_nat k)); [|lia].
    destruct (Z.ltb_spec (0 + Z.of_nat k) (Z.of_nat (List.length os))); [|lia].
    cbn [andb]. replace (Z.to_nat (0 + Z.of_nat k)) with k by lia.
    split; [lia|]. split; [intros _; lia|]. split; [|discriminate].
    intros os' Hos. injection Hos as <-. split; [|congruence].
    intros _. exists o. auto.
  - rewrite (findIndexFrom_none _ 0 os Ex). cbn.
    split; [lia|]. split.
    + intros Hne. destruct os; [now contradiction Hne | cbn [List.length]; lia].
    + split; [|discriminate].
      intros os' Hos. injection Hos as <-. split; [congruence | reflexivity].
Qed.

(** X21.  A question taken over from the generation endpoint keeps its text
    and has one option text per option sent.  Its correct index is never
    negative and, when there is an option, is the position of an option: the
    first one marked correct, or 0 when none is marked or the options are no
    array. *)
Theorem cleaned_question q :
  let g := TeacherPollRoom.toGeneratedQuestion q in
  TeacherPollRoom.question g = TeacherPollRoom.questionText q /\
  List.length (TeacherPollRoom.options g)
    = match TeacherPollRoom.apiOptions q with
      | Some os => List.length os
      | None => 0%nat
      end /\
  0 <= TeacherPollRoom.correctOptionIndex g /\
  (TeacherPollRoom.options g <> [] ->
   TeacherPollRoom.correctOptionIndex g
     < Z.of_nat (List.length (TeacherPollRoom.options g))) /\
  (forall os, TeacherPollRoom.apiOptions q = Some os ->
     (existsb TeacherPollRoom.correct os = true ->
      exists o,
        nth_error os (Z.to_nat (TeacherPollRoom.correctOptionIndex g)) = Some o /\
        TeacherPollRoom.correct o = true /\
        forall j o', (j < Z.to_nat (TeacherPollRoom.correctOptionIndex g))%nat ->
                     nth_error os j = Some o' ->
                     TeacherPollRoom.correct o' = false) /\
     (existsb TeacherPollRoom.correct os = false ->
      TeacherPollRoom.correctOptionIndex g = 0)) /\
  (TeacherPollRoom.apiOptions q = None ->
   TeacherPollRoom.options g = [] /\ TeacherPollRoom.correctOptionIndex g = 0).
Proof. exact (toGeneratedQuestion_spec q). Qed.

Lemma rem_small a b : 0 <= a < b -> Z.rem a b = a.
Proof. intros H. apply Z.rem_small. exact H. Qed.

(** X22.  On a card of a non-empty list the next and the previous button
    stay within the list and wrap around at its ends, and each undoes the
    other. *)
Theorem navigation_wraps i n :
  0 <= i < n ->
  (exists j,
     TeacherPollRoom.nextIndex i n = Some j /\ 0 <= j < n /\
     j = (if i + 1 <? n then i + 1 else 0) /\
     TeacherPollRoom.previousIndex j n = Some i) /\
  (exists k,
     TeacherPollRoom.previousIndex i n = Some k /\ 0 <= k < n /\
     k = (if i =? 0 then n - 1 else i - 1) /\
     TeacherPollRoom.nextIndex k n = Some i).
Proof.
  intros Hi.
  assert (Hn : (n =? 0) = false) by (apply Z.eqb_neq; lia).
  assert (Hwrap : forall a, 0 <= a < n -> Z.rem (a + n) n = a).
  { intros a Ha. rewrite Z.rem_mod_nonneg by lia.
    rewrite <- (Z.mul_1_l n) at 1. rewrite Z.mod_add by lia.
    apply Z.mod_small. lia. }
  assert (Hnn : Z.rem n n = 0) by (apply (Hwrap 0); lia).
  unfold TeacherPollRoom.nextIndex, TeacherPollRoom.previousIndex, JS.remainder.
  rewrite Hn. split.
  - destruct (Z.ltb_spec (i + 1) n) as [Hlt|Hge].
    + assert (H1 : Z.rem (i + 1) n = i + 1) by (apply rem_small; lia).
      assert (H2 : Z.rem (i + 1 - 1 + n) n = i)
        by (replace (i + 1 - 1 + n) with (i + n) by lia; apply Hwrap; lia).
      exists (i + 1). rewrite H1, H2. repeat split; lia.
    + assert (H1 : Z.rem (i + 1) n = 0)
        by (replace (i + 1) with n by lia; exact Hnn).
      assert (H2 : Z.rem (0 - 1 + n) n = i)
        by (rewrite rem_small by lia; lia).
      exists 0. rewrite H1, H2. repeat split; lia.
  - destruct (Z.eqb_spec i 0) as [->|Hne].
    + assert (H1 : Z.rem (0 - 1 + n) n = n - 1)
        by (rewrite rem_small by lia; lia).
      assert (H2 : Z.rem (n - 1 + 1) n = 0)
        by (replace (n - 1 + 1) with n by lia; exact Hnn).
      exists (n - 1). rewrite H1, H2. repeat split; lia.
    + assert (H1 : Z.rem (i - 1 + n) n = i - 1) by (apply Hwrap; lia).
      assert (H2 : Z.rem (i - 1 + 1) n = i)
        by (rewrite rem_small by lia; lia).
      exists (i - 1). rewrite H1, H2. repeat split; lia.
Qed.

Lemma navigation_wraps_witness :
  TeacherPollRoom.nextIndex 2 3 = Some 0 /\
  TeacherPollRoom.previousIndex 0 3 = Some 2.
Proof.
  destruct (navigation_wraps 2 3 ltac:(lia)) as [[j [Hn [_ [Hj _]]]] _].
  destruct (navigation_wraps 0 3 ltac:(lia)) as [_ [k [Hp [_ [Hk _]]]]].
  simpl in Hj, Hk. subst j k. split; assumption.
Defined.

Lemma filterIndexFrom_after {A : Type} index s (l : list A) :
  (index < s)%nat ->
  JS.filterIndexFrom (fun i => negb (Nat.eqb i index)) s l = l.
Proof.
  revert s. induction l as [|x r IH]; intros s Hs; simpl; [reflexivity|].
  destruct (Nat.eqb_spec s index); [lia|]. simpl. f_equal. apply IH. lia.
Qed.

Lemma filterIndexFrom_nth {A : Type} index (l : list A) s j :
  (s <= index)%nat ->
  nth_error (JS.filterIndexFrom (fun i => negb (Nat.eqb i index)) s l) j
  = if (j + s <? index)%nat then nth_error l j else nth_error l (S j).
Proof.
  revert s j. induction l as [|x r IH]; intros s j Hs.
  - simpl. destruct (j + s <? index)%nat; now destruct j.
  - cbn [JS.filterIndexFrom]. destruct (Nat.eqb_spec s index) as [E|E]; cbn [negb].
    + rewrite filterIndexFrom_after by lia.
      destruct (Nat.ltb_spec (j + s) index); [lia | reflexivity].
    + destruct j as [|j]; cbn [nth_error].
      * destruct (Nat.ltb_spec (0 + s) index); [reflexivity | lia].
      * rewrite IH by lia.
        replace (j + S s)%nat with (S j + s)%nat by lia. reflexivity.
Qed.

Lemma filterIndexFrom_length {A : Type} index (l : list A) s :
  (s <= index)%nat ->
  List.length (JS.filterIndexFrom (fun i => negb (Nat.eqb i index)) s l)
  = if (index <? s + List.length l)%nat then (List.length l - 1)%nat
    else List.length l.
Proof.
  revert s. induction l as [|x r IH]; intros s Hs.
  - simpl. destruct (index <? s + 0)%nat; reflexivity.
  - cbn [JS.filterIndexFrom]. destruct (Nat.eqb_spec s index) as [E|E]; cbn [negb].
    + rewrite filterIndexFrom_after by lia. cbn [List.length].
      destruct (Nat.ltb_spec index (s + S (List.length r))); lia.
    + cbn [List.length]. rewrite IH by lia.
      destruct (Nat.ltb_spec index (S s + List.length r)),
               (Nat.ltb_spec index (s + S (List.length r))); lia.
Qed.

(** X23.  Deleting a generated question takes out the question at the
    position and keeps the others in order.  The editor stays on the question
    it was editing, at that question's new position, unless that question is
    the one deleted, in which case it closes; the preview closes when no
    question is left. *)
Theorem deleteGeneratedQuestion_keeps_edit index st :
  let st' := TeacherPollRoom.deleteGeneratedQuestion index st in
  let qs := TeacherPollRoom.generatedQuestions st in
  let qs' := TeacherPollRoom.generatedQuestions st' in
  (forall j, nth_error qs' j
             = if (j <? index)%nat then nth_error qs j else nth_error qs (S j)) /\
  List.length qs'
    = (if (index <? List.length qs)%nat then List.length qs - 1 else List.length qs)%nat /\
  (forall e, TeacherPollRoom.editingQuestionIndex st = Some e -> e <> index ->
     exists e', TeacherPollRoom.editingQuestionIndex st' = Some e' /\
                nth_error qs' e' = nth_error qs e) /\
  (TeacherPollRoom.editingQuestionIndex st = Some index ->
   TeacherPollRoom.editingQuestionIndex st' = None) /\
  (TeacherPollRoom.editingQuestionIndex st = None ->
   TeacherPollRoom.editingQuestionIndex st' = None) /\
  TeacherPollRoom.showPreview st'
    = (if Nat.eqb (List.length qs') 0 then false
       else TeacherPollRoom.showPreview st).
Proof.
  intros st' qs qs'.
  assert (Hnth : forall j, nth_error qs' j
             = if (j <? index)%nat then nth_error qs j else nth_error qs (S j)).
  { intros j. unfold qs', st', TeacherPollRoom.deleteGeneratedQuestion, JS.filterIndex.
    cbn [TeacherPollRoom.generatedQuestions].
    rewrite filterIndexFrom_nth by lia. now rewrite Nat.add_0_r. }
  split; [exact Hnth|]. split.
  { unfold qs', st', TeacherPollRoom.deleteGeneratedQuestion, JS.filterIndex.
    cbn [TeacherPollRoom.generatedQuestions].
    now rewrite filterIndexFrom_length by lia. }
  split.
  { intros e He Hne. unfold st', TeacherPollRoom.deleteGeneratedQuestion.
    cbn [TeacherPollRoom.editingQuestionIndex]. rewrite He.
    destruct (Nat.eqb_spec e index); [contradiction|].
    destruct (Nat.ltb_spec index e) as [Hlt|Hge].
    - exists (e - 1)%nat. split; [reflexivity|]. fold st'. fold qs'.
      rewrite Hnth. destruct (Nat.ltb_spec (e - 1) index); [lia|].
      f_equal. lia.
    - exists e. split; [reflexivity|]. fold st'. fold qs'.
      rewrite Hnth. destruct (Nat.ltb_spec e index); [reflexivity | lia]. }
  split.
  { intros He. unfold st', TeacherPollRoom.deleteGeneratedQuestion.
    cbn [TeacherPollRoom.editingQuestionIndex]. rewrite He.
    now rewrite Nat.eqb_refl. }
  split.
  { intros He. unfold st', TeacherPollRoom.deleteGeneratedQuestion.
    cbn [TeacherPollRoom.editingQuestionIndex]. now rewrite He. }
  reflexivity.
Qed.

(** ** Open polls *)

(** X25.  A poll is open until it is answered: after [submitAnswer] for a
    poll id the open polls are the polls that were open and have another
    id. *)
Theorem submitAnswer_closes_poll pollId answerIndex polls answeredPolls p :
  In p (StudentPollRoom.activePolls polls
          (StudentPollRoom.submitAnswer pollId answerIndex answeredPolls))
  <-> In p (StudentPollRoom.activePolls polls answeredPolls)
      /\ StudentPollRoom.id p <> pollId.
Proof.
  unfold StudentPollRoom.activePolls, StudentPollRoom.submitAnswer.
  rewrite !filter_In. unfold JS.readProperty.
  destruct (String.eqb_spec (StudentPollRoom.id p) pollId) as [E|E].
  - rewrite E, get_set_same. split; [intros [_ H]; discriminate | tauto].
  - rewrite get_set_other by exact E. tauto.
Qed.

(** ** The four options of a poll *)

Lemma setAt_length {A : Type} k (v : option A) arr :
  k < Z.of_nat (List.length arr) ->
  List.length (JS.setAt k v arr) = List.length arr.
Proof.
  intros Hk. unfold JS.setAt. destruct (Z.ltb_spec k 0); [reflexivity|].
  destruct (Nat.ltb_spec (Z.to_nat k) (List.length arr)); [|lia].
  rewrite length_app, length_firstn. cbn [List.length]. rewrite length_skipn. lia.
Qed.

Lemma setAt_same {A : Type} k (v : option A) arr :
  0 <= k < Z.of_nat (List.length arr) ->
  nth_error (JS.setAt k v arr) (Z.to_nat k) = Some v.
Proof.
  intros Hk. unfold JS.setAt. destruct (Z.ltb_spec k 0); [lia|].
  destruct (Nat.ltb_spec (Z.to_nat k) (List.length arr)); [|lia].
  rewrite nth_error_app2 by (rewrite length_firstn; lia).
  rewrite length_firstn.
  replace (Z.to_nat k - Nat.min (Z.to_nat k) (List.length arr))%nat with 0%nat by lia.
  reflexivity.
Qed.

Lemma setAt_other {A : Type} k (v : option A) arr j :
  k < Z.of_nat (List.length arr) ->
  Z.of_nat j <> k ->
  nth_error (JS.setAt k v arr) j = nth_error arr j.
Proof.
  intros Hk Hj. unfold JS.setAt. destruct (Z.ltb_spec k 0); [reflexivity|].
  destruct (Nat.ltb_spec (Z.to_nat k) (List.length arr)); [|lia].
  destruct (Nat.ltb_spec j (Z.to_nat k)) as [Hlt|Hge].
  - rewrite nth_error_app1 by (rewrite length_firstn; lia).
    rewrite nth_error_firstn.
    destruct (Nat.ltb_spec j (Z.to_nat k)); [reflexivity | lia].
  - rewrite nth_error_app2 by (rewrite length_firstn; lia).
    rewrite length_firstn.
    replace (Nat.min (Z.to_nat k) (List.length arr)) with (Z.to_nat k) by lia.
    destruct (j - Z.to_nat k)%nat as [|d] eqn:Ed; [lia|].
    cbn [nth_error]. rewrite nth_error_skipn. f_equal. lia.
Qed.

Lemma fillIncorrect_keeps skip shuffled arr :
  List.length arr = 4%nat ->
  List.length (TeacherPollRoom.fillIncorrect skip shuffled arr) = 4%nat /\
  (0 <= skip ->
   nth_error (TeacherPollRoom.fillIncorrect skip shuffled arr) (Z.to_nat skip)
   = nth_error arr (Z.to_nat skip)).
Proof.
  intros Hlen. unfold TeacherPollRoom.fillIncorrect.
  set (step := fun '(arr, incorrectIndex) i =>
         if negb (Z.of_nat i =? skip)
            && (incorrectIndex <? List.length shuffled)%nat
         then (JS.setAt (Z.of_nat i) (nth_error shuffled incorrectIndex) arr,
               S incorrectIndex)
         else (arr, incorrectIndex)).
  assert (Hstep : forall st i, (i < 4)%nat -> List.length (fst st) = 4%nat ->
            List.length (fst (step st i)) = 4%nat /\
            (0 <= skip ->
             nth_error (fst (step st i)) (Z.to_nat skip)
             = nth_error (fst st) (Z.to_nat skip))).
  { intros [a ii] i Hi Ha. cbn [fst] in *. unfold step.
    destruct (Z.eqb_spec (Z.of_nat i) skip) as [E|E]; cbn [negb andb];
      [auto|].
    destruct (ii <? List.length shuffled)%nat; cbn [fst]; [|auto].
    split.
    - rewrite setAt_length by lia. exact Ha.
    - intros Hs. apply setAt_other; lia. }
  cbn [fold_left].
  destruct (Hstep (arr, 0%nat) 0%nat ltac:(lia) Hlen) as [L0 N0].
  destruct (Hstep _ 1%nat ltac:(lia) L0) as [L1 N1].
  destruct (Hstep _ 2%nat ltac:(lia) L1) as [L2 N2].
  destruct (Hstep _ 3%nat ltac:(lia) L2) as [L3 N3].
  split; [exact L3|].
  intros Hs. rewrite N3, N2, N1, N0 by exact Hs. reflexivity.
Qed.

Lemma filterQuestionOptions_spec trim shuffle random4 q :
  (random4 < 4)%nat ->
  let f := TeacherPollRoom.filterQuestionOptions trim shuffle random4 q in
  TeacherPollRoom.filteredQuestion f = TeacherPollRoom.question q /\
  List.length (TeacherPollRoom.filteredOptions f) = 4%nat /\
  (forall c,
     JS.getAt (TeacherPollRoom.correctOptionIndex q) (TeacherPollRoom.options q)
       = Some c ->
     0 <= TeacherPollRoom.newCorrectIndex f < 4 /\
     JS.getAt (TeacherPollRoom.newCorrectIndex f) (TeacherPollRoom.filteredOptions f)
       = Some (Some c)) /\
  ((List.length (TeacherPollRoom.options q) <= 4)%nat ->
   TeacherPollRoom.newCorrectIndex f = TeacherPollRoom.correctOptionIndex q /\
   TeacherPollRoom.filteredOptions f
   = map Some (TeacherPollRoom.options q)
     ++ repeat (Some EmptyString) (4 - List.length (TeacherPollRoom.options q))).
Proof.
  intros Hr f. unfold f, TeacherPollRoom.filterQuestionOptions.
  set (ci := TeacherPollRoom.correctOptionIndex q).
  set (opts := TeacherPollRoom.options q).
  assert (Hget : forall c, JS.getAt ci opts = Some c ->
            0 <= ci < Z.of_nat (List.length opts) /\
            nth_error opts (Z.to_nat ci) = Some c).
  { intros c Hc. unfold JS.getAt in Hc. destruct (Z.ltb_spec ci 0); [discriminate|].
    split; [|exact Hc].
    assert (Z.to_nat ci < List.length opts)%nat
      by (apply nth_error_Some; congruence). lia. }
  assert (Hfour : List.length (repeat (Some EmptyString) 4) = 4%nat) by reflexivity.
  destruct (Nat.leb_spec (List.length opts) 4) as [Hle|Hgt].
  - cbn [TeacherPollRoom.filteredQuestion TeacherPollRoom.filteredOptions
         TeacherPollRoom.newCorrectIndex].
    split; [reflexivity|]. split.
    { rewrite length_app, length_map, repeat_length. lia. }
    split; [|auto].
    intros c Hc. destruct (Hget c Hc) as [Hci Hnth]. split; [lia|].
    unfold JS.getAt. destruct (Z.ltb_spec ci 0); [lia|].
    rewrite nth_error_app1 by (rewrite length_map; lia).
    rewrite nth_error_map, Hnth. reflexivity.
  - destruct (Z.ltb_spec ci 4) as [Hlt|Hge];
      cbn [TeacherPollRoom.filteredQuestion TeacherPollRoom.filteredOptions
           TeacherPollRoom.newCorrectIndex].
    + match goal with
      | |- context [TeacherPollRoom.fillIncorrect ci ?sh ?arr] =>
          assert (Harr : List.length arr = 4%nat)
            by (rewrite setAt_length; [reflexivity | cbn; lia]);
          destruct (fillIncorrect_keeps ci sh arr Harr) as [Hl Hn]
      end.
      split; [reflexivity|]. split; [exact Hl|]. split; [|lia].
      intros c Hc. destruct (Hget c Hc) as [Hci _]. split; [lia|].
      unfold JS.getAt at 1. destruct (Z.ltb_spec ci 0); [lia|].
      rewrite Hn by lia. rewrite Hc. apply setAt_same. cbn. lia.
    + match goal with
      | |- context [TeacherPollRoom.fillIncorrect (Z.of_nat random4) ?sh ?arr] =>
          assert (Harr : List.length arr = 4%nat)
            by (rewrite setAt_length; [reflexivity | cbn; lia]);
          destruct (fillIncorrect_keeps (Z.of_nat random4) sh arr Harr) as [Hl Hn]
      end.
      split; [reflexivity|]. split; [exact Hl|]. split; [|lia].
      intros c Hc. split; [lia|].
      unfold JS.getAt at 1. destruct (Z.ltb_spec (Z.of_nat random4) 0); [lia|].
      rewrite Hn by lia. rewrite Hc. apply setAt_same. cbn. lia.
Qed.

(** X26.  Whatever the shuffle and the random place, a filtered question
    keeps its text and has four options; when the correct index was the
    position of an option, the new correct index is one of the four places
    and holds that option.  A question with at most four options keeps its
    options in order, followed by empty ones, and its correct index. *)
Theorem filtered_question_has_four trim shuffle random4 q :
  (random4 < 4)%nat ->
  let f := TeacherPollRoom.filterQuestionOptions trim shuffle random4 q in
  TeacherPollRoom.filteredQuestion f = TeacherPollRoom.question q /\
  List.length (TeacherPollRoom.filteredOptions f) = 4%nat /\
  (forall c,
     JS.getAt (TeacherPollRoom.correctOptionIndex q) (TeacherPollRoom.options q)
       = Some c ->
     0 <= TeacherPollRoom.newCorrectIndex f < 4 /\
     JS.getAt (TeacherPollRoom.newCorrectIndex f) (TeacherPollRoom.filteredOptions f)
       = Some (Some c)) /\
  ((List.length (TeacherPollRoom.options q) <= 4)%nat ->
   TeacherPollRoom.newCorrectIndex f = TeacherPollRoom.correctOptionIndex q /\
   TeacherPollRoom.filteredOptions f
   = map Some (TeacherPollRoom.options q)
     ++ repeat (Some EmptyString) (4 - List.length (TeacherPollRoom.options q))).
Proof. exact (filterQuestionOptions_spec trim shuffle random4 q). Qed.

Lemma filtered_question_has_four_witness :
  List.length
    (TeacherPollRoom.filteredOptions
       (TeacherPollRoom.filterQuestionOptions (fun s => s) (@rev string) 2
          (TeacherPollRoom.mkQuestion "q" ["a"; "b"; "c"; "d"; "e"; "f"] 5)))
  = 4%nat /\
  TeacherPollRoom.filterQuestionOptions (fun s => s) (@rev string) 2
    (TeacherPollRoom.mkQuestion "q" ["a"; "b"; "c"; "d"; "e"; "f"] 5)
  = TeacherPollRoom.mkFiltered "q"
      [Some "e"; Some "d"; Some "f"; Some "c"]%string 2.
Proof.
  split; [|reflexivity].
  apply (filtered_question_has_four (fun s => s) (@rev string) 2
           (TeacherPollRoom.mkQuestion "q" ["a"; "b"; "c"; "d"; "e"; "f"] 5)).
  lia.
Defined.

(** X27.  From the endpoint to the card: when the endpoint marks an option
    of a question as correct, the correct index of the cleaned and filtered
    question is one of the four places and holds the text of the first
    option marked correct, whatever the number of options, the shuffle and
    the random place. *)
Theorem marked_option_stays_correct trim shuffle random4 q os :
  (random4 < 4)%nat ->
  TeacherPollRoom.apiOptions q = Some os ->
  existsb TeacherPollRoom.correct os = true ->
  let f := TeacherPollRoom.filterQuestionOptions trim shuffle random4
             (TeacherPollRoom.toGeneratedQuestion q) in
  exists k o,
    nth_error os k = Some o /\ TeacherPollRoom.correct o = true /\
    (forall j o', (j < k)%nat -> nth_error os j = Some o' ->
                  TeacherPollRoom.correct o' = false) /\
    0 <= TeacherPollRoom.newCorrectIndex f < 4 /\
    JS.getAt (TeacherPollRoom.newCorrectIndex f) (TeacherPollRoom.filteredOptions f)
    = Some (Some match TeacherPollRoom.text o with
                 | Some t => t
                 | None => EmptyString
                 end).
Proof.
  intros Hr Hos Hex f.
  destruct (toGeneratedQuestion_spec q) as [_ [_ [Hnn [_ [Hidx _]]]]].
  destruct (Hidx os Hos) as [Hfound _].
  destruct (Hfound Hex) as [o [Hnth [Hc Hbefore]]].
  set (g := TeacherPollRoom.toGeneratedQuestion q) in *.
  exists (Z.to_nat (TeacherPollRoom.correctOptionIndex g)), o.
  split; [exact Hnth|]. split; [exact Hc|]. split; [exact Hbefore|].
  destruct (filterQuestionOptions_spec trim shuffle random4 g Hr)
    as [_ [_ [Hkeep _]]].
  apply Hkeep. unfold JS.getAt.
  destruct (Z.ltb_spec (TeacherPollRoom.correctOptionIndex g) 0); [lia|].
  assert (Hopts : TeacherPollRoom.options g
                  = map (fun opt => match TeacherPollRoom.text opt with
                                    | Some t => t
                                    | None => EmptyString
                                    end) os).
  { unfold g, TeacherPollRoom.toGeneratedQuestion.
    cbn [TeacherPollRoom.options]. now rewrite Hos. }
  rewrite Hopts, nth_error_map, Hnth. reflexivity.
Qed.

Lemma marked_option_stays_correct_witness :
  let q := TeacherPollRoom.mkAPI "q"
             (Some [TeacherPollRoom.mkOption (Some "a") false;
                    TeacherPollRoom.mkOption (Some "b") false;
                    TeacherPollRoom.mkOption (Some "c") false;
                    TeacherPollRoom.mkOption (Some "d") false;
                    TeacherPollRoom.mkOption (Some "e") false;
                    TeacherPollRoom.mkOption (Some "f") true]) in
  let f := TeacherPollRoom.filterQuestionOptions (fun s => s) (@rev string) 2
             (TeacherPollRoom.toGeneratedQuestion q) in
  TeacherPollRoom.filteredOptions f
    = [Some "e"; Some "d"; Some "f"; Some "c"]%string /\
  0 <= TeacherPollRoom.newCorrectIndex f < 4.
Proof.
  intros q f. split; [reflexivity|].
  destruct (marked_option_stays_correct (fun s => s) (@rev string) 2 q _
              ltac:(lia) eq_refl eq_refl) as [k [o [_ [_ [_ [H _]]]]]].
  exact H.
Defined.

(** ** What the service never writes *)

Lemma built_endedAt rooms :
  built rooms -> forall room, In room rooms -> Room.endedAt room = None.
Proof.
  induction 1 as [|random36 oid now name teacherId rooms _ IH|code rooms _ IH].
  - intros room [].
  - intros room Hin.
    destruct (RoomService.createRoom random36 oid now name teacherId rooms)
      as [rooms' [made|e]] eqn:Hc; cbn [fst] in Hin.
    + rewrite createRoom_unfold in Hc. apply save_Ok in Hc.
      destruct Hc as [_ [-> _]]. apply in_app_iff in Hin.
      destruct Hin as [Hin|[<-|[]]]; [now apply IH | reflexivity].
    + rewrite createRoom_unfold in Hc. unfold Room.save in Hc.
      repeat match type of Hc with
             | (if ?b then _ else _) = _ =>
                 destruct b; [injection Hc as <- _; now apply IH|]
             end.
      discriminate.
  - intros room Hin.
    induction (endRoom_frame code rooms) as [|r r' l l' Hr _ IHl];
      [destruct Hin|].
    destruct Hin as [<-|Hin].
    + destruct Hr as [->|[_ ->]]; cbn [Room.setStatus Room.endedAt];
        apply IH; now left.
    + apply IHl; [|exact Hin]. intros x Hx. apply IH. now right.
Qed.

(** X29.  No sequence of [createRoom] and [endRoom] calls stores an
    [endedAt]: in a collection built by them from the empty one every room
    lacks it, the ended rooms too, and every report has the duration
    [N/A]. *)
Theorem built_rooms_have_no_duration rooms :
  built rooms ->
  (forall room, In room rooms -> Room.endedAt room = None) /\
  (forall code userModel rep,
     RoomService.getPollAnalysis code rooms userModel = Ok rep ->
     Analysis.duration rep = "N/A"%string).
Proof.
  intros Hb. split; [now apply built_endedAt|].
  intros code userModel rep. unfold RoomService.getPollAnalysis.
  destruct (Room.findOne code rooms) as [room|] eqn:Hfind; [|discriminate].
  intros H. injection H as <-. cbn [Analysis.duration].
  unfold RoomService.duration.
  destruct (findOne_Some _ _ _ Hfind) as [Hin _].
  now rewrite (built_endedAt rooms Hb room Hin).
Qed.

Lemma built_rooms_have_no_duration_witness :
  let rooms :=
    fst (RoomService.endRoom "4FZZZX"
           (fst (RoomService.createRoom "0.4fzzzxjylrx" "o1" 5 "Algebra"
                   "teacher-1" []))) in
  built rooms /\
  RoomService.isRoomEnded "4FZZZX" rooms = true /\
  forall room, In room rooms -> Room.endedAt room = None.
Proof.
  intros rooms.
  assert (Hb : built rooms).
  { apply built_endRoom, built_createRoom, built_empty. }
  split; [exact Hb|]. split; [reflexivity|].
  apply (proj1 (built_rooms_have_no_duration rooms Hb)).
Defined.
